(** * act.qc.arm.add_dqr_to_qc: merging ARM Data Quality Reports into
      the quality-control state of a dataset.

    A shallow embedding of [src/act/qc/arm.py].  The procedure talks to
    three collaborators that live outside the file: the DQR web service
    (reached through [requests.get]), the dataset container, and the
    quality-control accessors of the host library ([ds.clean] and
    [ds.qcfilter]).  The collaborators are the fields of the class
    [HostLibrary]; the procedure itself is written in a small
    state-and-exception monad over a [World] that holds the dataset and
    the chronological log of the effects the procedure performs. *)

From Stdlib Require Import ZArith String Ascii List Lia.
From stdpp Require Import base option list gmap strings.
Import ListNotations.

#[local] Open Scope string_scope.
#[local] Open Scope list_scope.
#[local] Open Scope Z_scope.

(** ** Python strings *)

Module PyStr.

(** Code points below 256 are the characters of [string]. *)

Definition code (c : ascii) : N := N_of_ascii c.

(** The line boundaries of [str.splitlines] among those code points. *)
Definition is_linebreak (c : ascii) : bool :=
  let n := code c in
  (N.eqb n 10 || N.eqb n 11 || N.eqb n 12 || N.eqb n 13
   || N.eqb n 28 || N.eqb n 29 || N.eqb n 30 || N.eqb n 133)%bool.

Definition snoc (s : string) (c : ascii) : string := s +:+ String c "".

(** [text.splitlines()]: a carriage return followed by a line feed is
    one boundary, and no empty string is produced after the last
    boundary. *)
Fixpoint splitlines_from (cur : string) (started : bool) (s : string)
  : list string :=
  match s with
  | EmptyString => if started then [cur] else []
  | String c rest =>
      if N.eqb (code c) 13 then
        match rest with
        | String c' rest' =>
            if N.eqb (code c') 10
            then cur :: splitlines_from "" false rest'
            else cur :: splitlines_from "" false rest
        | EmptyString => cur :: splitlines_from "" false rest
        end
      else if is_linebreak c then cur :: splitlines_from "" false rest
      else splitlines_from (snoc cur c) true rest
  end.

Definition splitlines (s : string) : list string :=
  splitlines_from "" false s.

(** [s.split(sep)] for a separator of one character. *)
Fixpoint split_from (sep : ascii) (cur : string) (s : string) : list string :=
  match s with
  | EmptyString => [cur]
  | String c rest =>
      if Ascii.eqb c sep then cur :: split_from sep "" rest
      else split_from sep (snoc cur c) rest
  end.

Definition split (sep : ascii) (s : string) : list string :=
  split_from sep "" s.

(** [sep.join(parts)] *)
Fixpoint join (sep : string) (parts : list string) : string :=
  match parts with
  | [] => ""
  | [p] => p
  | p :: rest => p +:+ sep +:+ join sep rest
  end.

(** White space as [int] strips it from both ends of its argument:
    tab to carriage return and the space, and the two spaces above
    code 127; the separators 28 to 31 are not among it. *)
Definition is_space (c : ascii) : bool :=
  let n := code c in
  ((N.leb 9 n && N.leb n 13) || N.eqb n 32
   || N.eqb n 133 || N.eqb n 160)%bool.

Definition digit_value (c : ascii) : option Z :=
  let n := code c in
  if (N.leb 48 n && N.leb n 57)%bool then Some (Z.of_N n - 48) else None.

Fixpoint lstrip (l : list ascii) : list ascii :=
  match l with
  | c :: rest => if is_space c then lstrip rest else l
  | [] => []
  end.

Definition strip (l : list ascii) : list ascii :=
  rev (lstrip (rev (lstrip l))).

(** Decimal digits, single underscores allowed between two digits. *)
Fixpoint digits_from (acc : Z) (after_digit : bool) (l : list ascii)
  : option Z :=
  match l with
  | [] => if after_digit then Some acc else None
  | c :: rest =>
      if Ascii.eqb c "_"%char then
        if after_digit then digits_from acc false rest else None
      else
        match digit_value c with
        | Some d => digits_from (10 * acc + d) true rest
        | None => None
        end
  end.

(** The most digits [int] converts: the default of
    [sys.int_info.default_max_str_digits]. *)
Definition max_str_digits : nat := 4300.

Definition is_digit (c : ascii) : bool :=
  match digit_value c with Some _ => true | None => false end.

Definition count_digits (l : list ascii) : nat :=
  length (List.filter is_digit l).

(** [int(s)] in base ten; [None] stands for the [ValueError] raised on
    a literal that is not an integer, or that has too many digits. *)
Definition int (s : string) : option Z :=
  let body := strip (list_ascii_of_string s) in
  if Nat.ltb max_str_digits (count_digits body) then None
  else
    match body with
    | c :: rest =>
        if Ascii.eqb c "-"%char then Z.opp <$> digits_from 0 false rest
        else if Ascii.eqb c "+"%char then digits_from 0 false rest
        else digits_from 0 false (c :: rest)
    | [] => None
    end.

End PyStr.

(** ** numpy index arrays *)

Module Np.

(** What the procedure stores under ['index'] and hands to the test
    registration: the tuple of coordinate arrays that [np.where]
    returns (one array per axis), or a flat integer array. *)
Inductive index_t :=
| IndTuple (axes : list (list Z))
| IndArray (a : list Z).

(** Positions of the true entries of a flat mask, counted from [i]. *)
Fixpoint nonzero_from (i : Z) (mask : list bool) : list Z :=
  match mask with
  | [] => []
  | b :: rest =>
      if b then i :: nonzero_from (i + 1) rest
      else nonzero_from (i + 1) rest
  end.

Definition flatnonzero (mask : list bool) : list Z := nonzero_from 0 mask.

(** Row-major strides (in elements) of an array of the given shape. *)
Fixpoint strides (shape : list nat) : list Z :=
  match shape with
  | [] => []
  | _ :: rest => Z.of_nat (foldr Nat.mul 1%nat rest) :: strides rest
  end.

(** [np.where(mask)] for a mask of the given shape: the coordinates
    of the true entries, one array per axis, in row-major order.  A
    zero-dimensional mask is treated as a one-element vector. *)
Definition where_ (shape : list nat) (mask : list bool) : list (list Z) :=
  let ps := flatnonzero mask in
  match shape with
  | [] => [ps]
  | _ =>
      zip_with (fun d st => (fun p => (p / st) mod Z.of_nat d) <$> ps)
               shape (strides shape)
  end.

(** Flattening, as [np.ravel] of the array made from the value. *)
Definition ravel (i : index_t) : list Z :=
  match i with
  | IndTuple axes => concat axes
  | IndArray a => a
  end.

(** [np.size] *)
Definition size (i : index_t) : nat := length (ravel i).

(** [np.append(arr, values)] without an axis: both flattened, then
    concatenated. *)
Definition append (arr values : index_t) : index_t :=
  IndArray (ravel arr ++ ravel values).

End Np.

Export Np(index_t(..)).

(** ** Data model *)

(** One element of an array.  A number is kept only up to equality (the
    procedure never computes with data values); [NaN] is the float that
    differs from itself; the time coordinate holds instants counted in
    nanoseconds since the epoch, each a 64-bit integer, or [NaT]. *)
Inductive cell :=
| Val (x : Z)
| NaN
| Instant (ns : Z)
| NaT.

(** [ds[name]]: dimension names, shape, and the values in row-major
    order. *)
Record DataArray := {
  dims : list string;
  shape : list nat;
  values : list cell;
}.

(** The dataset.  [qc] is whatever state the host's quality-control
    accessors keep; the procedure never looks inside it. *)
Record Dataset (QC : Type) := {
  attrs : gmap string string;
  arrays : gmap string DataArray;
  data_vars : list string;
  qc : QC;
}.
Arguments attrs {QC} _.
Arguments arrays {QC} _.
Arguments data_vars {QC} _.
Arguments qc {QC} _.

(** Exceptions that can leave the procedure. *)
Inductive exn :=
| ValueError (msg : string)
| KeyError (key : string)
| IndexError
| TypeError
| TimestampOutOfRange
| HostError (tag : string).

Inductive result (A : Type) :=
| Ok (a : A)
| Raise (e : exn).
Arguments Ok {A} a.
Arguments Raise {A} e.

(** [requests.get(url)] returns an object with a status and a body. *)
Record Response := {
  status_code : Z;
  text : string;
}.

(** The [variable] argument: [None], one name, or a list or tuple. *)
Inductive variable_arg :=
| VarNone
| VarName (name : string)
| VarList (names : list string).

Record Args := {
  variable : variable_arg;
  assessment : string;
  exclude : option (list string);
  include : option (list string);
  normalize_assessment : bool;
  cleanup_qc : bool;
  dqr_link : bool;
  skip_location_vars : bool;
}.

(** The defaults of the signature. *)
Definition default_args : Args := {|
  variable := VarNone;
  assessment := "incorrect,suspect";
  exclude := None;
  include := None;
  normalize_assessment := true;
  cleanup_qc := true;
  dqr_link := false;
  skip_location_vars := false;
|}.

(** The value kept per report id in [dqr_results]. *)
Record dqr_entry := {
  index : index_t;
  test_assessment : string;
  test_meaning : string;
}.

(** A Python dict iterates in insertion order and the registration loop
    iterates over it, so [dqr_results] is an association list: a key is
    stored once, assignment to a stored key keeps its place. *)
Definition dict := list (string * dqr_entry).

Fixpoint dict_get (k : string) (d : dict) : option dqr_entry :=
  match d with
  | [] => None
  | (k', v) :: rest => if String.eqb k k' then Some v else dict_get k rest
  end.

Fixpoint dict_set (k : string) (v : dqr_entry) (d : dict) : dict :=
  match d with
  | [] => [(k, v)]
  | (k', v') :: rest =>
      if String.eqb k k' then (k, v) :: rest else (k', v') :: dict_set k v rest
  end.

(** Effects visible outside the procedure, in the order they happen. *)
Inductive event :=
| ECleanup
| EGet (url : string)
| EPrint (line : string)
| EAddTest (var_name : string) (ind : index_t)
           (meaning : string) (assess : string)
| ENormalize (var_name : string).

Record World (QC : Type) := {
  ds : Dataset QC;
  log : list event;
}.
Arguments ds {QC} _.
Arguments log {QC} _.

(** ** The collaborators *)

(** What the procedure uses and [src/act/qc/arm.py] does not define.  A
    call into the host library may change the dataset and may raise. *)
Class HostLibrary (QC : Type) := {
  (** [act.config.DEFAULT_DATASTREAM_NAME] *)
  DEFAULT_DATASTREAM_NAME : string;
  (** [requests.get] *)
  requests_get : string -> result Response;
  (** the iteration order of a Python set *)
  set_iteration : gset string -> list string;
  (** [ds.clean.cleanup()] *)
  clean_cleanup : Dataset QC -> Dataset QC * option exn;
  (** [ds.clean.matched_qc_variables] *)
  clean_matched_qc_variables : Dataset QC -> list string;
  (** [ds.qcfilter.add_test(var_name, index=, test_meaning=,
      test_assessment=)] *)
  qcfilter_add_test :
    Dataset QC -> string -> index_t -> string -> string ->
    Dataset QC * option exn;
  (** [ds.clean.normalize_assessment(variables=var_name)] *)
  clean_normalize_assessment :
    Dataset QC -> string -> Dataset QC * option exn;
}.

(** ** Pure computations that may raise *)

Definition result_bind {A B} (r : result A) (k : A -> result B) : result B :=
  match r with
  | Ok a => k a
  | Raise e => Raise e
  end.

Definition result_of_option {A} (e : exn) (o : option A) : result A :=
  match o with
  | Some a => Ok a
  | None => Raise e
  end.

(** ** A monad for state, log and exceptions *)

Definition M (QC A : Type) : Type := World QC -> World QC * result A.

Section Monad.
Context {QC : Type}.

Definition ret {A} (a : A) : M QC A := fun w => (w, Ok a).

Definition raise {A} (e : exn) : M QC A := fun w => (w, Raise e).

Definition bind {A B} (m : M QC A) (k : A -> M QC B) : M QC B :=
  fun w =>
    match m w with
    | (w', Ok a) => k a w'
    | (w', Raise e) => (w', Raise e)
    end.

Definition emit (ev : event) : M QC unit :=
  fun w => ({| ds := ds w; log := log w ++ [ev] |}, Ok tt).

Definition get_ds : M QC (Dataset QC) := fun w => (w, Ok (ds w)).

Definition lift {A} (r : result A) : M QC A := fun w => (w, r).

Definition of_option {A} (e : exn) (o : option A) : M QC A :=
  lift (result_of_option e o).

(** A call into the host library: logged when it is made. *)
Definition host_call (ev : event)
    (f : Dataset QC -> Dataset QC * option exn) : M QC unit :=
  fun w =>
    let r := f (ds w) in
    ({| ds := r.1; log := log w ++ [ev] |},
     match r.2 with
     | None => Ok tt
     | Some e => Raise e
     end).

(** [try: body  except IndexError: handler] *)
Definition except_IndexError (body handler : M QC unit) : M QC unit :=
  fun w =>
    match body w with
    | (w', Raise IndexError) => handler w'
    | r => r
    end.

(** [for x in xs: acc = body(acc, x)] *)
Fixpoint for_fold {A X} (body : A -> X -> M QC A) (acc : A) (xs : list X)
  : M QC A :=
  match xs with
  | [] => ret acc
  | x :: rest => bind (body acc x) (fun acc' => for_fold body acc' rest)
  end.

(** [for x in xs: body(x)] *)
Fixpoint for_each {X} (body : X -> M QC unit) (xs : list X) : M QC unit :=
  match xs with
  | [] => ret tt
  | x :: rest => bind (body x) (fun _ => for_each body rest)
  end.

End Monad.

Declare Scope py_scope.
Delimit Scope py_scope with py.
Notation "'let!' x ':=' m 'in' k" := (bind m (fun x => k))
  (at level 10, x name, m at level 100, k at level 200) : py_scope.
Notation "'run!' m 'in' k" := (bind m (fun _ => k))
  (at level 10, m at level 100, k at level 200) : py_scope.
#[local] Open Scope py_scope.

(** ** The procedure *)

Section Procedure.
Context {QC : Type} {host : HostLibrary QC}.

(** [ds[name]] *)
Definition getitem (name : string) : M QC DataArray :=
  fun w => of_option (KeyError name) (arrays (ds w) !! name) w.

(** [line[i]] and [line[-1]] *)
Definition item (line : list string) (i : nat) : result string :=
  result_of_option IndexError (line !! i).

Definition last_item (line : list string) : result string :=
  result_of_option IndexError (last line).

(** [dqr_no in ids] *)
Definition member (x : string) (ids : list string) : bool :=
  existsb (String.eqb x) ids.

(** The range of [datetime.utcfromtimestamp]: years 1 to 9999. *)
Definition min_timestamp : Z := -62135596800.
Definition max_timestamp : Z := 253402300799.

(** [np.datetime64(dt.datetime.utcfromtimestamp(int(field)))]: a
    [datetime64[us]] scalar, microseconds since the epoch. *)
Definition datetime64_of_field (field : string) : result Z :=
  result_bind
    (result_of_option
       (ValueError "invalid literal for int() with base 10")
       (PyStr.int field))
    (fun secs =>
       if (min_timestamp <=? secs) && (secs <=? max_timestamp)
       then Ok (secs * 1000000)
       else Raise TimestampOutOfRange).

(** The elements of a datetime array, [datetime64[ns]]: nanoseconds
    since the epoch in 64 bits, or [NaT]; an array of another type
    cannot be compared with a [datetime64]. *)
Definition as_datetime (c : cell) : option (option Z) :=
  match c with
  | Instant t => Some (Some t)
  | NaT => Some None
  | Val _ | NaN => None
  end.

(** Arithmetic in 64 bits, two's complement. *)
Definition int64_min : Z := -9223372036854775808.

Definition wrap_int64 (z : Z) : Z :=
  (z + 9223372036854775808) mod 18446744073709551616 - 9223372036854775808.

(** The cast numpy applies to the scalar before it compares it with
    the coordinate: microseconds times 1000 in 64 bits, without a check
    for overflow; the least 64-bit integer reads as [NaT]. *)
Definition datetime64_us_to_ns (us : Z) : option Z :=
  let v := wrap_int64 (us * 1000) in
  if v =? int64_min then None else Some v.

(** [time >= starttime] and [time <= endtime] on one element; every
    comparison with [NaT] is false. *)
Definition datetime_ge (t bound : option Z) : bool :=
  match t, bound with
  | Some t, Some b => b <=? t
  | _, _ => false
  end.

Definition datetime_le (t bound : option Z) : bool :=
  match t, bound with
  | Some t, Some b => t <=? b
  | _, _ => false
  end.

(** [(time >= starttime) & (time <= endtime)] on one element. *)
Definition in_range (starttime endtime : Z) (t : option Z) : bool :=
  datetime_ge t (datetime64_us_to_ns starttime)
  && datetime_le t (datetime64_us_to_ns endtime).

(** [np.where((time >= starttime) & (time <= endtime))] over the
    one-dimensional time coordinate: a tuple of one array. *)
Definition time_where (time : list cell) (starttime endtime : Z)
  : result (list Z) :=
  result_bind (result_of_option TypeError (mapM as_datetime time))
    (fun ts => Ok (Np.flatnonzero (in_range starttime endtime <$> ts))).

(** Lines 154-155: [starttime] and [endtime] of one split line. *)
Definition line_range (line : list string) : result (Z * Z) :=
  result_bind (item line 1) (fun field1 =>
  result_bind (datetime64_of_field field1) (fun starttime =>
  result_bind (item line 2) (fun field2 =>
  result_bind (datetime64_of_field field2) (fun endtime =>
  Ok (starttime, endtime))))).

(** Lines 154-156: the positions of the time coordinate inside the
    range of one split line. *)
Definition line_positions (time : list cell) (line : list string)
  : result (list Z) :=
  result_bind (line_range line) (fun range =>
  time_where time range.1 range.2).

(** Elementwise [==] and [np.isnan]. *)
Definition cell_eq (a b : cell) : bool :=
  match a, b with
  | Val x, Val y => x =? y
  | Instant x, Instant y => x =? y
  | _, _ => false
  end.

Definition isnan (c : cell) : bool :=
  match c with
  | NaN | NaT => true
  | Val _ | Instant _ => false
  end.

(** [(v == v) | np.isnan(v)] *)
Definition self_or_nan_mask (v : list cell) : list bool :=
  zip_with orb (zip_with cell_eq v v) (isnan <$> v).

(** Lines 162-164: the index of a variable without a time dimension. *)
Definition whole_array_index (arr : DataArray) : index_t :=
  let ind := Np.where_ (shape arr) (self_or_nan_mask (values arr)) in
  if Nat.eqb (Np.size (IndTuple ind)) 1
  then IndArray (default [] (head ind))
  else IndTuple ind.

(** Lines 147 and 151. *)
Definition excluded (a : Args) (dqr_no : string) : bool :=
  match exclude a with
  | Some ids => member dqr_no ids
  | None => false
  end.

Definition not_included (a : Args) (dqr_no : string) : bool :=
  match include a with
  | Some ids => negb (member dqr_no ids)
  | None => false
  end.

Definition link_line (dqr_no assess : string) : string :=
  PyStr.join " "
    [dqr_no; "-"; assess; ":";
     "https://adc.arm.gov/ArchiveServices/DQRService?dqrid=" +:+ dqr_no].

(** Lines 161-164: the index recorded for a line whose range holds
    the (non-empty) [positions] of the time coordinate. *)
Definition record_index (arr : DataArray) (positions : list Z) : index_t :=
  if negb (member "time" (dims arr)) then whole_array_index arr
  else IndTuple [positions].

(** Lines 143-176: the body of the loop over the response lines. *)
Definition process_line (a : Args) (var_name : string) (time : list cell)
    (dqr_results : dict) (text_line : string) : M QC dict :=
  let line := PyStr.split "|" text_line in
  let! dqr_no := lift (item line 0) in
  if excluded a dqr_no then ret dqr_results
  else if not_included a dqr_no then ret dqr_results
  else
    let! positions := lift (line_positions time line) in
    if Nat.eqb (length positions) 0 then ret dqr_results
    else
      let! arr := getitem var_name in
      let ind := record_index arr positions in
      match dict_get dqr_no dqr_results with
      | Some old =>
          ret (dict_set dqr_no
                 {| index := Np.append (index old) ind;
                    test_assessment := test_assessment old;
                    test_meaning := test_meaning old |}
                 dqr_results)
      | None =>
          let! assess := lift (item line 3) in
          let! subject := lift (last_item line) in
          let entry :=
            {| index := ind;
               test_assessment := assess;
               test_meaning := PyStr.join ": " [dqr_no; subject] |} in
          run! (if dqr_link a then emit (EPrint (link_line dqr_no assess))
                else ret tt) in
          ret (dict_set dqr_no entry dqr_results)
      end.

Definition skip_notice (var_name : string) : string :=
  "Skipping '" +:+ var_name +:+ "' DQR application because of IndexError".

(** Lines 178-186: one registration, with its handler. *)
Definition register_one (var_name : string) (kv : string * dqr_entry)
  : M QC unit :=
  let value := kv.2 in
  except_IndexError
    (host_call
       (EAddTest var_name (index value) (test_meaning value)
                 (test_assessment value))
       (fun d => qcfilter_add_test d var_name (index value)
                   (test_meaning value) (test_assessment value)))
    (emit (EPrint (skip_notice var_name))).

(** Line 177: the loop over the aggregated records. *)
Definition register_results (var_name : string) (dqr_results : dict)
  : M QC unit :=
  for_each (register_one var_name) dqr_results.

(** Lines 117-126. *)
Definition request_url (a : Args) (datastream var_name : string) : string :=
  "http://www.archive.arm.gov/dqrws/ARMDQR?datastream="
    +:+ datastream
    +:+ ("&varname=" +:+ var_name)
    +:+ PyStr.join ""
          ["&searchmetric="; assessment a;
           "&dqrfields=dqrid,starttime,endtime,metric,subject"].

(** Line 129. *)
Definition http_get (url : string) : M QC Response :=
  fun w =>
    ({| ds := ds w; log := log w ++ [EGet url] |},
     requests_get url).

(** Lines 131-136. *)
Definition check_status (status : Z) : M QC unit :=
  if status =? 400 then raise (ValueError "Check parameters")
  else if status =? 500
       then raise (ValueError "DQR Webservice Temporarily Down")
       else ret tt.

(** Lines 142-176. *)
Definition process_lines (a : Args) (var_name : string) (time : list cell)
    (dqrs : list string) : M QC dict :=
  for_fold (process_line a var_name time) [] dqrs.

(** Lines 138-189: from the response to the end of the loop body. *)
Definition merge_response (a : Args) (var_name : string) (req : Response)
  : M QC unit :=
  let dqrs := PyStr.splitlines (text req) in
  let! time_arr := getitem "time" in
  let time := values time_arr in
  let! dqr_results := process_lines a var_name time dqrs in
  run! register_results var_name dqr_results in
  if normalize_assessment a
  then host_call (ENormalize var_name)
         (fun d => clean_normalize_assessment d var_name)
  else ret tt.

(** Lines 116-189: the body of the loop over the variables, after the
    location test. *)
Definition process_variable (a : Args) (datastream var_name : string)
  : M QC unit :=
  let url := request_url a datastream var_name in
  let! req := http_get url in
  run! check_status (status_code req) in
  merge_response a var_name req.

Definition loc_vars : list string :=
  ["lat"; "lon"; "alt"; "latitude"; "longitude"; "altitude"].

(** Lines 87-96. *)
Definition resolve_datastream : M QC string :=
  let! d := get_ds in
  let! datastream :=
    match attrs d !! "datastream" with
    | Some name => ret name
    | None =>
        match attrs d !! "_datastream" with
        | Some name => ret name
        | None =>
            raise (ValueError "Dataset does not have datastream attribute")
        end
    end in
  if String.eqb datastream DEFAULT_DATASTREAM_NAME
  then raise (ValueError
         ("'datastream' name required for DQR service set to default value "
          +:+ datastream +:+ ". Unable to perform DQR service query."))
  else ret datastream.

(** Lines 103-108. *)
Definition resolve_variables (a : Args) : M QC (list string) :=
  match variable a with
  | VarNone =>
      let! d := get_ds in
      ret (set_iteration
             (list_to_set (data_vars d)
                ∖ list_to_set (clean_matched_qc_variables d)))
  | VarName name => ret [name]
  | VarList names => ret names
  end.

(** The whole procedure; it returns the dataset it was given. *)
Definition add_dqr_to_qc (a : Args) : M QC (Dataset QC) :=
  let! datastream := resolve_datastream in
  run! (if cleanup_qc a then host_call ECleanup clean_cleanup
        else ret tt) in
  let! variables := resolve_variables a in
  run! for_each
         (fun var_name =>
            if skip_location_vars a && member var_name loc_vars then ret tt
            else process_variable a datastream var_name)
         variables in
  get_ds.

End Procedure.

(** ** Vocabulary of the statements *)

(** The report id of a response line: its first field. *)
Definition line_id (text_line : string) : option string :=
  head (PyStr.split "|" text_line).

(** An id that passes both filters. *)
Definition accepted (a : Args) (dqr_no : string) : bool :=
  negb (excluded a dqr_no) && negb (not_included a dqr_no).

(** A line in the format of the service, as far as the loop body reads
    it: a line that passes the filters has two epoch fields inside the
    range of [datetime], the time coordinate holds datetimes, and a line
    whose range meets the coordinate has the severity field. *)
Definition well_formed (a : Args) (time : list cell) (text_line : string)
  : bool :=
  let line := PyStr.split "|" text_line in
  match head line with
  | Some dqr_no =>
      if accepted a dqr_no then
        match line_positions time line with
        | Ok [] => true
        | Ok (_ :: _) => (4 <=? length line)%nat
        | Raise _ => false
        end
      else true
  | None => false
  end.

(** What a line adds to the index of report [d]. *)
Definition line_index (a : Args) (time : list cell) (arr : DataArray)
    (d : string) (text_line : string) : option index_t :=
  let line := PyStr.split "|" text_line in
  match head line with
  | Some dqr_no =>
      if String.eqb d dqr_no && accepted a dqr_no then
        match line_positions time line with
        | Ok (p :: ps) => Some (record_index arr (p :: ps))
        | _ => None
        end
      else None
  | None => None
  end.

Definition merge_index (acc : option index_t) (c : option index_t)
  : option index_t :=
  match c with
  | None => acc
  | Some i =>
      Some match acc with
           | None => i
           | Some old => Np.append old i
           end
  end.

(** The identifying name of the dataset: the first of the two
    attribute keys that is present. *)
Definition identifying_name {QC} (d : Dataset QC) : option string :=
  match attrs d !! "datastream" with
  | Some name => Some name
  | None => attrs d !! "_datastream"
  end.

(** The world after one more logged event. *)
Definition logged {QC} (w : World QC) (evs : list event) : World QC :=
  {| ds := ds w; log := log w ++ evs |}.

(** The variables for which the severity vocabulary was normalized, and
    the registrations attempted. *)
Definition normalize_calls (l : list event) : list string :=
  omap (fun ev => match ev with ENormalize v => Some v | _ => None end) l.

Definition is_add_test (ev : event) : bool :=
  match ev with
  | EAddTest _ _ _ _ => true
  | _ => false
  end.

Definition is_get (ev : event) : bool :=
  match ev with
  | EGet _ => true
  | _ => false
  end.

Definition set_normalize (b : bool) (a : Args) : Args := {|
  variable := variable a;
  assessment := assessment a;
  exclude := exclude a;
  include := include a;
  normalize_assessment := b;
  cleanup_qc := cleanup_qc a;
  dqr_link := dqr_link a;
  skip_location_vars := skip_location_vars a;
|}.

Definition add_test_event (var_name : string) (kv : string * dqr_entry)
  : event :=
  EAddTest var_name (index kv.2) (test_meaning kv.2) (test_assessment kv.2).

(** The keys of [dqr_results] are ids that pass the filters. *)
Definition keys_accepted (a : Args) (res : dict) : Prop :=
  ∀ k e, dict_get k res = Some e → accepted a k = true.

(** [emits Q m]: whatever [m] does, it appends to the log events that
    satisfy [Q], and nothing else happens to the log. *)
Definition emits {QC A} (Q : event → Prop) (m : M QC A) : Prop :=
  ∀ w w' r, m w = (w', r) →
    ∃ added, log w' = log w ++ added ∧ Forall Q added.

(** ** A small host library, to run the procedure on concrete data *)

Module Demo.

(** The registered tests: variable, index, meaning, assessment. *)
Definition qc_state : Type := list (string * index_t * string * string).

Definition prefix_qc (name : string) : bool :=
  String.prefix "qc_" name.

(** The registration rejects an index outside the variable. *)
Definition add_test (d : Dataset qc_state) (var_name : string)
    (ind : index_t) (meaning assess : string)
  : Dataset qc_state * option exn :=
  match arrays d !! var_name with
  | None => (d, Some (KeyError var_name))
  | Some arr =>
      let n := Z.of_nat (length (values arr)) in
      if forallb (fun i => (0 <=? i) && (i <? n)) (Np.ravel ind)
      then ({| attrs := attrs d; arrays := arrays d;
               data_vars := data_vars d;
               qc := qc d ++ [(var_name, ind, meaning, assess)] |}, None)
      else (d, Some IndexError)
  end.

Definition internal_term (assess : string) : string :=
  if String.eqb assess "Incorrect" then "Bad"
  else if String.eqb assess "Suspect" then "Indeterminate"
  else assess.

Definition normalize (d : Dataset qc_state) (var_name : string)
  : Dataset qc_state * option exn :=
  ({| attrs := attrs d; arrays := arrays d; data_vars := data_vars d;
      qc := (fun t : string * index_t * string * string =>
               if String.eqb t.1.1.1 var_name
               then (t.1.1.1, t.1.1.2, t.1.2, internal_term t.2)
               else t) <$> qc d |}, None).

#[local] Instance host (service : string -> result Response)
  : HostLibrary qc_state := {|
  DEFAULT_DATASTREAM_NAME := "act_datastream";
  requests_get := service;
  set_iteration := elements;
  clean_cleanup := fun d => (d, None);
  clean_matched_qc_variables := fun d => filter (fun n => prefix_qc n = true) (data_vars d);
  qcfilter_add_test := add_test;
  clean_normalize_assessment := normalize;
|}.

Definition ns (secs : Z) : cell := Instant (secs * 1000000000).

(** Five samples, ten seconds apart; a temperature along time and
    three calibration constants that are not. *)
Definition time_coord : DataArray :=
  {| dims := ["time"]; shape := [5%nat];
     values := [ns 0; ns 10; ns 20; ns 30; ns 40] |}.

Definition temp_mean : DataArray :=
  {| dims := ["time"]; shape := [5%nat];
     values := [Val 21; Val 22; NaN; Val 22; Val 23] |}.

Definition calib : DataArray :=
  {| dims := ["coef"]; shape := [3%nat];
     values := [Val 1; NaN; Val 3] |}.

Definition dataset (name_attrs : gmap string string) : Dataset qc_state :=
  {| attrs := name_attrs;
     arrays := {[ "time" := time_coord; "temp_mean" := temp_mean;
                  "calib" := calib ]};
     data_vars := ["temp_mean"; "calib"];
     qc := [] |}.

Definition named : gmap string string := {[ "datastream" := "sgpmetE13.b1" ]}.

Definition world (name_attrs : gmap string string) : World qc_state :=
  {| ds := dataset name_attrs; log := [] |}.

(** A service that answers every request with the same response. *)
Definition answer (status : Z) (body : string) : string -> result Response :=
  fun _ => Ok {| status_code := status; text := body |}.

Definition newline : string := String (ascii_of_nat 10) "".

(** A dataset that was never given a name, one that kept the default
    name, and one without a time coordinate. *)
Definition unnamed : gmap string string := ∅.

Definition default_named : gmap string string :=
  {[ "_datastream" := "act_datastream" ]}.

Definition timeless_world : World qc_state :=
  {| ds := {| attrs := named;
              arrays := {[ "calib" := calib ]};
              data_vars := ["calib"];
              qc := [] |};
     log := [] |}.

(** Response lines. *)
Definition d1_first : string := "D1|0|10|Incorrect|bad sensor".
Definition d1_second : string := "D1|30|45|Incorrect|bad sensor".
Definition d2_line : string := "D2|15|25|Suspect|drift".
Definition d9_outside : string := "D9|1000|2000|Incorrect|bad sensor".

(** A report that is still open, with its end in the year 3000, and a
    report of the years 2262 to 2554. *)
Definition d1_open : string := "D1|0|32503680000|Incorrect|bad sensor".
Definition d1_late : string :=
  "D1|9223372037|18446744074|Incorrect|bad sensor".

Definition body (lines : list string) : string := PyStr.join newline lines.

(** A record whose index is outside a variable of three elements. *)
Definition stray : string * dqr_entry :=
  ("D7", {| index := IndArray [7];
            test_assessment := "Incorrect";
            test_meaning := "D7: bad sensor" |}).

Definition args (names : list string) : Args := {|
  variable := VarList names;
  assessment := "incorrect,suspect";
  exclude := None;
  include := None;
  normalize_assessment := false;
  cleanup_qc := false;
  dqr_link := false;
  skip_location_vars := false;
|}.

(** Further response lines: a later line of D1 with another severity,
    a line of D1 with another severity and a range outside the time
    coordinate, one without the severity field, and an empty line. *)
Definition d1_suspect : string := "D1|30|45|Suspect|other words".
Definition d1_before : string := "D1|1000|2000|Suspect|other words".
Definition d1_short : string := "D1|30|45".
Definition blank : string := "".

(** The records of the response D1, D2, D1 for the temperature. *)
Definition merged_records : dict :=
  [("D1", {| index := IndArray [0; 1; 3; 4];
             test_assessment := "Incorrect";
             test_meaning := "D1: bad sensor" |});
   ("D2", {| index := IndTuple [[2]];
             test_assessment := "Suspect";
             test_meaning := "D2: drift" |})].

Definition link_args : Args := {|
  variable := VarList ["temp_mean"];
  assessment := "incorrect,suspect";
  exclude := None;
  include := None;
  normalize_assessment := false;
  cleanup_qc := false;
  dqr_link := true;
  skip_location_vars := false;
|}.

Definition link_run : World qc_state * result dict :=
  process_lines link_args "temp_mean" (values time_coord)
    [d1_first; d2_line; d1_suspect] (world named).

(** A call over three names, one of them a location variable. *)
Definition skip_args : Args := {|
  variable := VarList ["temp_mean"; "lat"; "calib"];
  assessment := "incorrect,suspect";
  exclude := None;
  include := None;
  normalize_assessment := true;
  cleanup_qc := true;
  dqr_link := false;
  skip_location_vars := true;
|}.

Definition skip_run : World qc_state * result (Dataset qc_state) :=
  add_dqr_to_qc (host := host (answer 200 (body [d1_first])))
    skip_args (world named).

(** A call without a [variable] argument. *)
Definition default_run : World qc_state * result (Dataset qc_state) :=
  add_dqr_to_qc (host := host (answer 200 (body [d1_first])))
    default_args (world named).

End Demo.

(** ** Ranges as the report states them *)

(** The two epoch fields of a split line, as integers. *)
Definition line_epochs (line : list string) : option (Z * Z) :=
  match line !! 1%nat, line !! 2%nat with
  | Some field1, Some field2 =>
      match PyStr.int field1, PyStr.int field2 with
      | Some s, Some e => Some (s, e)
      | _, _ => None
      end
  | _, _ => None
  end.

(** Epoch seconds whose nanoseconds fit 64 bits: September 1677 to
    April 2262. *)
Definition fits_ns (secs : Z) : Prop :=
  -9223372036 ≤ secs ≤ 9223372036.

(** Position [i] of the time coordinate holds a timestamp between
    [s] and [e] seconds after the epoch, both ends included. *)
Definition in_range_at (time : list cell) (s e : Z) (i : Z) : Prop :=
  0 ≤ i
  ∧ ∃ t, time !! Z.to_nat i = Some (Instant t)
         ∧ s * 1000000000 ≤ t ≤ e * 1000000000.

(** ** Vocabulary of the further properties *)

(** The urls requested, in the order of the log. *)
Definition get_urls (l : list event) : list string :=
  omap (fun ev => match ev with EGet u => Some u | _ => None end) l.

(** A variable the loop over the variables goes past (lines 113-115). *)
Definition skipped (a : Args) (var_name : string) : bool :=
  skip_location_vars a && member var_name loc_vars.

(** The dataset after lines 98-100. *)
Definition cleaned {QC} {host : HostLibrary QC} (a : Args)
    (d : Dataset QC) : Dataset QC :=
  if cleanup_qc a then (clean_cleanup d).1 else d.

(** The variables the caller names, when the argument names them. *)
Definition explicit_variables (a : Args) : option (list string) :=
  match variable a with
  | VarNone => None
  | VarName name => Some [name]
  | VarList names => Some names
  end.

(** The console line of a record (line 176). *)
Definition link_event (kv : string * dqr_entry) : event :=
  EPrint (link_line kv.1 (test_assessment kv.2)).

Definition is_print (ev : event) : bool :=
  match ev with
  | EPrint _ => true
  | _ => false
  end.

Definition is_normalize (ev : event) : bool :=
  match ev with
  | ENormalize _ => true
  | _ => false
  end.

Definition is_cleanup (ev : event) : bool :=
  match ev with
  | ECleanup => true
  | _ => false
  end.

(** A line that adds nothing to the records: its id fails a filter, or
    the comparison with its two timestamps selects no position of the
    time coordinate. *)
Definition inert (a : Args) (time : list cell) (text_line : string) : bool :=
  match line_id text_line with
  | Some dqr_no =>
      if accepted a dqr_no then
        match line_positions time (PyStr.split "|" text_line) with
        | Ok [] => true
        | _ => false
        end
      else true
  | None => false
  end.

(** Events that are neither a request, nor a normalization, nor the
    cleanup. *)
Definition inner (ev : event) : Prop :=
  is_get ev = false ∧ is_normalize ev = false ∧ is_cleanup ev = false.

(** The characters of a string. *)
Definition chars (s : string) : list ascii := list_ascii_of_string s.

(** * Properties *)

(** ** Dictionaries *)

Lemma dict_get_set_eq k v d : dict_get k (dict_set k v d) = Some v.
Proof.
  induction d as [|[k' v'] d IH]; simpl.
  - by rewrite String.eqb_refl.
  - destruct (String.eqb k k') eqn:E; simpl; rewrite ?String.eqb_refl, ?E; done.
Qed.

Lemma dict_get_set_ne k k' v d :
  k ≠ k' → dict_get k (dict_set k' v d) = dict_get k d.
Proof.
  intros Hne. induction d as [|[k2 v2] d IH]; simpl.
  - destruct (String.eqb_spec k k'); congruence.
  - destruct (String.eqb_spec k' k2) as [->|Hn]; simpl.
    + destruct (String.eqb_spec k k2); congruence.
    + destruct (String.eqb_spec k k2); congruence.
Qed.

(** ** The log only grows *)

Section LogFrame.
Context {QC : Type}.

Lemma emits_ret {A} Q (a : A) : emits (QC:=QC) Q (ret a).
Proof.
  intros w w' r [= <- <-]. exists []. by rewrite app_nil_r.
Qed.

Lemma emits_raise {A} Q e : emits Q (@raise QC A e).
Proof.
  intros w w' r [= <- <-]. exists []. by rewrite app_nil_r.
Qed.

Lemma emits_lift {A} Q (x : result A) : emits (QC:=QC) Q (lift x).
Proof.
  intros w w' r [= <- <-]. exists []. by rewrite app_nil_r.
Qed.

Lemma emits_get_ds Q : emits Q (@get_ds QC).
Proof.
  intros w w' r [= <- <-]. exists []. by rewrite app_nil_r.
Qed.

Lemma emits_bind {A B} Q (m : M QC A) (k : A → M QC B) :
  emits Q m → (∀ a, emits Q (k a)) → emits Q (bind m k).
Proof.
  intros Hm Hk w w' r. unfold bind.
  destruct (m w) as [w1 [a|e]] eqn:E; intros Hrun.
  - destruct (Hm _ _ _ E) as (l1 & E1 & F1).
    destruct (Hk _ _ _ _ Hrun) as (l2 & E2 & F2).
    exists (l1 ++ l2). rewrite E2, E1, app_assoc.
    split; [done | by apply Forall_app].
  - injection Hrun as <- <-. eauto.
Qed.

Lemma emits_emit (Q : event → Prop) ev : Q ev → emits Q (@emit QC ev).
Proof.
  intros HQ w w' r [= <- <-]. exists [ev]. simpl. auto.
Qed.

Lemma emits_host_call (Q : event → Prop) ev f :
  Q ev → emits Q (@host_call QC ev f).
Proof.
  intros HQ w w' r. unfold host_call. intros [= <- <-].
  exists [ev]. simpl. auto.
Qed.

Lemma emits_except Q (body handler : M QC unit) :
  emits Q body → emits Q handler → emits Q (except_IndexError body handler).
Proof.
  intros Hb Hh w w' r. unfold except_IndexError.
  destruct (body w) as [w1 [[]|e]] eqn:E.
  - intros [= <- <-]. eauto.
  - destruct (Hb _ _ _ E) as (l1 & E1 & F1).
    destruct e; try (intros [= <- <-]; eauto).
    intros Hrun. destruct (Hh _ _ _ Hrun) as (l2 & E2 & F2).
    exists (l1 ++ l2). rewrite E2, E1, app_assoc.
    split; [done | by apply Forall_app].
Qed.

Lemma emits_for_fold {A X} Q (body : A → X → M QC A) xs :
  (∀ acc x, emits Q (body acc x)) → ∀ acc, emits Q (for_fold body acc xs).
Proof.
  intros Hb. induction xs as [|x xs IH]; intros acc; simpl.
  - apply emits_ret.
  - apply emits_bind; auto.
Qed.

Lemma emits_for_each {X} Q (body : X → M QC unit) xs :
  (∀ x, emits Q (body x)) → emits Q (for_each body xs).
Proof.
  intros Hb. induction xs as [|x xs IH]; simpl.
  - apply emits_ret.
  - apply emits_bind; auto.
Qed.

Lemma emits_if {A} Q (b : bool) (m1 m2 : M QC A) :
  emits Q m1 → emits Q m2 → emits Q (if b then m1 else m2).
Proof. by destruct b. Qed.

End LogFrame.

Create HintDb emits discriminated.
#[local] Hint Resolve emits_ret emits_raise emits_lift emits_get_ds
  emits_emit emits_host_call emits_except emits_for_fold emits_for_each
  emits_if : emits.

(** ** Loops *)

Section Loops.
Context {QC : Type}.

Lemma for_each_app {X} (body : X → M QC unit) xs ys w :
  for_each body (xs ++ ys) w
  = bind (for_each body xs) (fun _ => for_each body ys) w.
Proof.
  revert w. induction xs as [|x xs IH]; intros w; simpl.
  - done.
  - unfold bind. destruct (body x w) as [w1 [[]|e]]; [|done].
    rewrite IH. done.
Qed.

Lemma for_fold_app {A X} (body : A → X → M QC A) xs ys acc w :
  for_fold body acc (xs ++ ys) w
  = bind (for_fold body acc xs) (fun acc' => for_fold body acc' ys) w.
Proof.
  revert acc w. induction xs as [|x xs IH]; intros acc w; simpl.
  - done.
  - unfold bind. destruct (body acc x w) as [w1 [acc1|e]]; [|done].
    rewrite IH. done.
Qed.

End Loops.

(** ** What each part of the procedure writes to the log *)

Section Effects.
Context {QC : Type} {host : HostLibrary QC}.
Variable Q : event → Prop.
Hypothesis Q_print : ∀ s, Q (EPrint s).

Lemma emits_getitem name : emits Q (getitem (QC:=QC) name).
Proof.
  intros w w' r. unfold getitem. apply emits_lift.
Qed.

Lemma emits_process_line a var time res text_line :
  emits Q (process_line (QC:=QC) a var time res text_line).
Proof.
  unfold process_line.
  apply emits_bind; [auto with emits|intros dqr_no].
  repeat (apply emits_if; [auto with emits|]).
  apply emits_bind; [auto with emits|intros positions].
  apply emits_if; [auto with emits|].
  apply emits_bind; [apply emits_getitem|intros arr].
  destruct (dict_get dqr_no res); [auto with emits|].
  repeat (apply emits_bind; [auto with emits|intros ?]).
  auto with emits.
Qed.

Hypothesis Q_add_test : ∀ v i m s, Q (EAddTest v i m s).

Lemma emits_register_results var res :
  emits Q (register_results var res).
Proof.
  unfold register_results. apply emits_for_each. intros kv.
  unfold register_one. auto with emits.
Qed.

Lemma emits_merge_response a var req :
  (normalize_assessment a = true → Q (ENormalize var)) →
  emits Q (merge_response a var req).
Proof.
  intros Hn. unfold merge_response.
  apply emits_bind; [apply emits_getitem|intros time_arr].
  apply emits_bind.
  { unfold process_lines. apply emits_for_fold.
    intros; apply emits_process_line. }
  intros res. apply emits_bind; [apply emits_register_results|intros _].
  destruct (normalize_assessment a); auto with emits.
Qed.

Hypothesis Q_get : ∀ u, Q (EGet u).

Lemma emits_process_variable a datastream var :
  (normalize_assessment a = true → Q (ENormalize var)) →
  emits Q (process_variable a datastream var).
Proof.
  intros Hn. unfold process_variable.
  apply emits_bind.
  { intros w w' r. unfold http_get. intros [= <- <-].
    exists [EGet (request_url a datastream var)]. simpl. auto. }
  intros req. apply emits_bind; [|intros _; by apply emits_merge_response].
  unfold check_status. repeat (apply emits_if; auto with emits).
Qed.

End Effects.

(** ** The whole call and its log *)

Section CallEffects.
Context {QC : Type} {host : HostLibrary QC}.
Variable Q : event → Prop.
Hypothesis Q_print : ∀ s, Q (EPrint s).
Hypothesis Q_add_test : ∀ v i m s, Q (EAddTest v i m s).
Hypothesis Q_get : ∀ u, Q (EGet u).
Hypothesis Q_cleanup : Q ECleanup.

Lemma emits_add_dqr_to_qc a :
  (normalize_assessment a = true → ∀ v, Q (ENormalize v)) →
  emits Q (add_dqr_to_qc a).
Proof.
  intros Hn. unfold add_dqr_to_qc.
  apply emits_bind.
  { unfold resolve_datastream.
    apply emits_bind; [auto with emits|intros d].
    apply emits_bind; [|intros; auto with emits].
    repeat case_match; auto with emits. }
  intros datastream. apply emits_bind; [auto with emits|intros _].
  apply emits_bind.
  { unfold resolve_variables. case_match; auto with emits.
    apply emits_bind; auto with emits. }
  intros variables. apply emits_bind; [|auto with emits].
  apply emits_for_each. intros v. apply emits_if; [auto with emits|].
  apply emits_process_variable; auto.
Qed.

End CallEffects.

Section Lines.
Context {QC : Type}.
Implicit Types (a : Args) (w : World QC) (res : dict).

Lemma accepted_true a dqr_no :
  accepted a dqr_no = true ↔
  excluded a dqr_no = false ∧ not_included a dqr_no = false.
Proof.
  unfold accepted. destruct (excluded a dqr_no), (not_included a dqr_no);
    simpl; intuition congruence.
Qed.

Lemma item_0 text_line dqr_no :
  line_id text_line = Some dqr_no →
  item (PyStr.split "|" text_line) 0 = Ok dqr_no.
Proof.
  unfold line_id, item. rewrite head_lookup. by intros ->.
Qed.

Lemma line_id_is_Some text_line : is_Some (line_id text_line).
Proof.
  unfold line_id, PyStr.split. generalize "".
  induction text_line as [|c rest IH]; intros cur; simpl; [eauto|].
  destruct (Ascii.eqb c "|"); simpl; eauto.
Qed.

(** A line whose id fails a filter leaves everything as it is. *)
Lemma process_line_filtered a var time res text_line dqr_no w :
  line_id text_line = Some dqr_no →
  accepted a dqr_no = false →
  process_line (QC:=QC) a var time res text_line w = (w, Ok res).
Proof.
  intros Hid Hacc. unfold process_line, bind, lift.
  rewrite (item_0 _ _ Hid). unfold accepted in Hacc.
  destruct (excluded a dqr_no); [done|].
  destruct (not_included a dqr_no); [done|]. done.
Qed.

(** A line whose range holds no position of the time coordinate leaves
    everything as it is. *)
Lemma process_line_empty a var time res text_line dqr_no w :
  line_id text_line = Some dqr_no →
  line_positions time (PyStr.split "|" text_line) = Ok [] →
  process_line (QC:=QC) a var time res text_line w = (w, Ok res).
Proof.
  intros Hid Hpos. unfold process_line, bind, lift.
  rewrite (item_0 _ _ Hid), Hpos.
  destruct (excluded a dqr_no); [done|].
  destruct (not_included a dqr_no); done.
Qed.

(** A later line of a report appends to the index of the report. *)
Lemma process_line_merge a var time res text_line dqr_no p ps arr old w :
  line_id text_line = Some dqr_no →
  accepted a dqr_no = true →
  line_positions time (PyStr.split "|" text_line) = Ok (p :: ps) →
  arrays (ds w) !! var = Some arr →
  dict_get dqr_no res = Some old →
  process_line a var time res text_line w
  = (w, Ok (dict_set dqr_no
              {| index := Np.append (index old)
                            (record_index arr (p :: ps));
                 test_assessment := test_assessment old;
                 test_meaning := test_meaning old |} res)).
Proof.
  intros Hid [He Hi]%accepted_true Hpos Harr Hold.
  unfold process_line, bind, lift, getitem, of_option, lift.
  rewrite (item_0 _ _ Hid), He, Hi, Hpos. cbn. rewrite Harr. cbn.
  rewrite Hold. done.
Qed.

(** The first line of a report creates its record, and prints the
    link when asked to. *)
Lemma process_line_new a var time res text_line dqr_no p ps arr assess w :
  line_id text_line = Some dqr_no →
  accepted a dqr_no = true →
  line_positions time (PyStr.split "|" text_line) = Ok (p :: ps) →
  arrays (ds w) !! var = Some arr →
  dict_get dqr_no res = None →
  PyStr.split "|" text_line !! 3%nat = Some assess →
  ∃ subject,
    last (PyStr.split "|" text_line) = Some subject ∧
    process_line a var time res text_line w
    = (logged w (if dqr_link a then [EPrint (link_line dqr_no assess)]
                 else []),
       Ok (dict_set dqr_no
             {| index := record_index arr (p :: ps);
                test_assessment := assess;
                test_meaning := PyStr.join ": " [dqr_no; subject] |} res)).
Proof.
  intros Hid [He Hi]%accepted_true Hpos Harr Hnew H3.
  destruct (last (PyStr.split "|" text_line)) as [subject|] eqn:Hlast.
  2:{ apply last_None in Hlast. by rewrite Hlast in H3. }
  exists subject. split; [done|].
  unfold process_line, bind, lift, getitem, of_option, lift.
  rewrite (item_0 _ _ Hid), He, Hi, Hpos. cbn. rewrite Harr. cbn.
  rewrite Hnew. unfold item, last_item. rewrite H3, Hlast. cbn.
  unfold logged. destruct (dqr_link a); simpl.
  - done.
  - rewrite app_nil_r. by destruct w.
Qed.

(** The loop body never touches the dataset. *)
Lemma process_line_ds a var time res text_line w w' r :
  process_line a var time res text_line w = (w', r) → ds w' = ds w.
Proof.
  unfold process_line, bind, lift, getitem, of_option, lift, ret, emit.
  repeat (case_match; simplify_eq/=; try done);
    by intros [= <- _].
Qed.

End Lines.

(** ** Index arrays *)

Lemma elem_of_nonzero_from k mask i :
  i ∈ Np.nonzero_from k mask ↔
  k ≤ i ∧ mask !! Z.to_nat (i - k) = Some true.
Proof.
  revert k. induction mask as [|b mask IH]; intros k; simpl.
  - rewrite elem_of_nil. split; [done|]. by intros [_ ?].
  - assert (Hstep : i ∈ Np.nonzero_from (k + 1) mask ↔
                    k < i ∧ (b :: mask) !! Z.to_nat (i - k) = Some true).
    { rewrite IH. split.
      - intros [Hle Hl]. split; [lia|].
        replace (Z.to_nat (i - k)) with (S (Z.to_nat (i - (k + 1)))) by lia.
        done.
      - intros [Hlt Hl]. split; [lia|].
        replace (Z.to_nat (i - k)) with (S (Z.to_nat (i - (k + 1)))) in Hl
          by lia.
        done. }
    destruct b.
    + rewrite elem_of_cons, Hstep. split.
      * intros [->|[Hlt Hl]]; [|split; [lia|done]].
        split; [lia|]. by replace (k - k) with 0 by lia.
      * intros [Hle Hl]. destruct (decide (i = k)) as [->|Hne]; [by left|].
        right. split; [lia|done].
    + rewrite Hstep. split.
      * intros [Hlt Hl]. split; [lia|done].
      * intros [Hle Hl]. split; [|done].
        destruct (decide (i = k)) as [->|Hne]; [|lia].
        replace (k - k) with 0 in Hl by lia. done.
Qed.

Lemma elem_of_flatnonzero mask i :
  i ∈ Np.flatnonzero mask ↔ 0 ≤ i ∧ mask !! Z.to_nat i = Some true.
Proof.
  unfold Np.flatnonzero. rewrite elem_of_nonzero_from.
  by replace (i - 0) with i by lia.
Qed.






(** ** Contributions of the lines to one report *)

Lemma foldl_merge_index_None acc cs :
  Forall (eq None) cs → foldl merge_index acc cs = acc.
Proof.
  intros Hall. revert acc. induction Hall as [|c cs <- _ IH]; intros acc.
  - done.
  - simpl. apply IH.
Qed.

Lemma line_index_other a time arr d text_line :
  line_id text_line ≠ Some d → line_index a time arr d text_line = None.
Proof.
  unfold line_id, line_index. intros Hne.
  destruct (head (PyStr.split "|" text_line)) as [dqr_no|]; [|done].
  destruct (String.eqb_spec d dqr_no) as [->|]; [done|]. done.
Qed.

Lemma line_index_others a time arr d lines :
  Forall (λ l, line_id l ≠ Some d) lines →
  Forall (eq None) (line_index a time arr d <$> lines).
Proof.
  intros Hall. apply Forall_fmap. eapply Forall_impl; [done|].
  intros l Hl. simpl. symmetry. by apply line_index_other.
Qed.

Lemma line_index_own a time arr d text_line p ps :
  line_id text_line = Some d →
  accepted a d = true →
  line_positions time (PyStr.split "|" text_line) = Ok (p :: ps) →
  line_index a time arr d text_line = Some (record_index arr (p :: ps)).
Proof.
  unfold line_id, line_index. intros -> -> ->.
  by rewrite String.eqb_refl.
Qed.

(** ** The loop over the response lines *)

Section LineLoop.
Context {QC : Type}.
Implicit Types (a : Args) (w : World QC) (res : dict).

Lemma head_split text_line :
  head (PyStr.split "|" text_line) = line_id text_line.
Proof. done. Qed.

(** One well-formed line: the body returns, and the index of every
    report changes by what the line contributes to it. *)
Lemma process_line_step a var time arr res text_line w :
  arrays (ds w) !! var = Some arr →
  well_formed a time text_line = true →
  ∃ w' res',
    process_line a var time res text_line w = (w', Ok res')
    ∧ ds w' = ds w
    ∧ ∀ d, index <$> dict_get d res'
           = merge_index (index <$> dict_get d res)
               (line_index a time arr d text_line).
Proof.
  intros Harr Hwf.
  destruct (line_id_is_Some text_line) as [dqr_no Hid].
  unfold well_formed in Hwf. rewrite head_split, Hid in Hwf.
  assert (Hother : ∀ d, d ≠ dqr_no →
                        line_index a time arr d text_line = None).
  { intros d Hne. apply line_index_other. rewrite Hid. congruence. }
  destruct (accepted a dqr_no) eqn:Hacc.
  2:{ exists w, res. split; [by eapply process_line_filtered|].
      split; [done|]. intros d. unfold line_index.
      rewrite head_split, Hid, Hacc, andb_false_r. done. }
  destruct (line_positions time (PyStr.split "|" text_line))
    as [[|p ps]|e] eqn:Hpos; [| |done].
  { exists w, res. split; [by eapply process_line_empty|].
    split; [done|]. intros d. unfold line_index.
    rewrite head_split, Hid, Hpos. by case_match. }
  apply Nat.leb_le in Hwf.
  destruct (lookup_lt_is_Some_2 (PyStr.split "|" text_line) 3)
    as [assess H3]; [lia|].
  assert (Hown := line_index_own a time arr dqr_no text_line p ps
                    Hid Hacc Hpos).
  destruct (dict_get dqr_no res) as [old|] eqn:Hold.
  - eexists w, _. split; [by eapply process_line_merge|].
    split; [done|]. intros d.
    destruct (decide (d = dqr_no)) as [->|Hne].
    + rewrite dict_get_set_eq, Hold, Hown. done.
    + rewrite dict_get_set_ne, Hother by done. done.
  - destruct (process_line_new a var time res text_line dqr_no p ps arr
                assess w Hid Hacc Hpos Harr Hold H3)
      as (subject & _ & Hrun).
    eexists _, _. split; [exact Hrun|].
    split; [done|]. intros d.
    destruct (decide (d = dqr_no)) as [->|Hne].
    + rewrite dict_get_set_eq, Hold, Hown. done.
    + rewrite dict_get_set_ne, Hother by done. done.
Qed.

(** A response of well-formed lines: the loop returns, and the index
    of every report is the fold of the contributions of the lines, in
    the order of the response. *)
Lemma process_lines_index a var time arr dqrs :
  ∀ res w,
    arrays (ds w) !! var = Some arr →
    Forall (λ l, well_formed a time l = true) dqrs →
    ∃ w' res',
      for_fold (process_line a var time) res dqrs w = (w', Ok res')
      ∧ ds w' = ds w
      ∧ ∀ d, index <$> dict_get d res'
             = foldl merge_index (index <$> dict_get d res)
                 (line_index a time arr d <$> dqrs).
Proof.
  induction dqrs as [|l dqrs IH]; intros res w Harr Hwf.
  - exists w, res. done.
  - apply Forall_cons in Hwf as [Hl Hwf].
    destruct (process_line_step a var time arr res l w Harr Hl)
      as (w1 & res1 & Hrun1 & Hds1 & Hidx1).
    destruct (IH res1 w1) as (w2 & res2 & Hrun2 & Hds2 & Hidx2);
      [by rewrite Hds1|done|].
    exists w2, res2. split; [|split].
    + cbn [for_fold]. unfold bind. by rewrite Hrun1.
    + congruence.
    + intros d. rewrite Hidx2, Hidx1. done.
Qed.

Lemma process_line_keys a var time res text_line w w' res' :
  process_line a var time res text_line w = (w', Ok res') →
  keys_accepted a res → keys_accepted a res'.
Proof.
  intros Hrun Hkeys.
  destruct (line_id_is_Some text_line) as [dqr_no Hid].
  destruct (accepted a dqr_no) eqn:Hacc.
  2:{ rewrite (process_line_filtered _ _ _ _ _ dqr_no) in Hrun by done.
      by injection Hrun as <- <-. }
  assert (Hset : ∀ v, keys_accepted a (dict_set dqr_no v res)).
  { intros v k e. destruct (decide (k = dqr_no)) as [->|Hne]; [done|].
    rewrite dict_get_set_ne by done. apply Hkeys. }
  revert Hrun. unfold process_line, bind, lift, getitem, of_option, lift,
    ret, emit.
  repeat (case_match; simplify_eq/=; try done);
    intros [= <- <-]; try done;
    match goal with
    | H : item _ 0 = Ok ?k |- _ =>
        rewrite (item_0 _ _ Hid) in H; injection H as <-; apply Hset
    end.
Qed.

Lemma process_lines_keys a var time dqrs :
  ∀ res w w' res',
    for_fold (process_line a var time) res dqrs w = (w', Ok res') →
    keys_accepted a res → keys_accepted a res'.
Proof.
  induction dqrs as [|l dqrs IH]; intros res w w' res'; cbn [for_fold].
  - by intros [= <- <-].
  - unfold bind.
    destruct (process_line a var time res l w) as [w1 [res1|e]] eqn:E;
      [|done].
    intros Hrun Hkeys. eapply IH; [done|].
    by eapply process_line_keys.
Qed.

End LineLoop.

Section Claims.
Context {QC : Type} {host : HostLibrary QC}.

(** *** The status of the response *)

(** The only statuses the procedure looks for are 400 and 500: with
    any other status the body of the response is processed. *)
Lemma process_variable_unchecked a datastream var w req :
  requests_get (request_url a datastream var) = Ok req →
  status_code req ≠ 400 →
  status_code req ≠ 500 →
  process_variable a datastream var w
  = merge_response a var req
      (logged w [EGet (request_url a datastream var)]).
Proof.
  intros Hget H400 H500.
  unfold process_variable, bind, http_get, check_status. rewrite Hget.
  destruct (Z.eqb_spec (status_code req) 400); [done|].
  destruct (Z.eqb_spec (status_code req) 500); [done|].
  done.
Qed.

Lemma process_variable_400 a datastream var w req :
  requests_get (request_url a datastream var) = Ok req →
  status_code req = 400 →
  process_variable a datastream var w
  = (logged w [EGet (request_url a datastream var)],
     Raise (ValueError "Check parameters")).
Proof.
  intros Hget H400.
  unfold process_variable, bind, http_get, check_status.
  rewrite Hget, H400. done.
Qed.

Lemma process_variable_500 a datastream var w req :
  requests_get (request_url a datastream var) = Ok req →
  status_code req = 500 →
  process_variable a datastream var w
  = (logged w [EGet (request_url a datastream var)],
     Raise (ValueError "DQR Webservice Temporarily Down")).
Proof.
  intros Hget H500.
  unfold process_variable, bind, http_get, check_status.
  rewrite Hget, H500. done.
Qed.

(** C5.  A dataset that carries neither ['datastream'] nor
    ['_datastream'], or whose identifying name is the reserved default,
    makes the call raise a [ValueError] and leaves the world as it
    was: the log has no request (nor any other event) and the dataset,
    with its quality-control state, is the one given. *)
Theorem datastream_checked_first (a : Args) (w : World QC) :
  (attrs (ds w) !! "datastream" = None
     ∧ attrs (ds w) !! "_datastream" = None)
  ∨ identifying_name (ds w) = Some DEFAULT_DATASTREAM_NAME →
  ∃ msg,
    add_dqr_to_qc a w = (w, Raise (ValueError msg))
    ∧ (identifying_name (ds w) = None →
       msg = "Dataset does not have datastream attribute").
Proof.
  unfold identifying_name, add_dqr_to_qc, resolve_datastream, bind, get_ds.
  intros [[H1 H2]|H].
  - rewrite H1, H2. simpl. eauto.
  - destruct (attrs (ds w) !! "datastream") as [name|] eqn:E1.
    + injection H as ->. simpl. rewrite String.eqb_refl.
      eexists; split; [done|]. done.
    + rewrite H. simpl. rewrite String.eqb_refl.
      eexists; split; [done|]. done.
Qed.

(** C10.  The time coordinate is read before the first response line:
    once a request has passed the status test, a dataset without
    ['time'] raises the lookup error, whatever the body of the response
    and whatever the variable; a call that reaches its first variable
    ends there. *)
Theorem time_coordinate_required
    (a : Args) (datastream var : string) (w : World QC) (req : Response) :
  requests_get (request_url a datastream var) = Ok req →
  status_code req ≠ 400 →
  status_code req ≠ 500 →
  arrays (ds w) !! "time" = None →
  process_variable a datastream var w
  = (logged w [EGet (request_url a datastream var)],
     Raise (KeyError "time"))
  ∧ (∀ rest,
       resolve_datastream w = (w, Ok datastream) →
       cleanup_qc a = false →
       variable a = VarList (var :: rest) →
       skip_location_vars a && member var loc_vars = false →
       add_dqr_to_qc a w
       = (logged w [EGet (request_url a datastream var)],
          Raise (KeyError "time"))).
Proof.
  intros Hget H400 H500 Htime.
  assert (Hvar : process_variable a datastream var w
                 = (logged w [EGet (request_url a datastream var)],
                    Raise (KeyError "time"))).
  { rewrite (process_variable_unchecked _ _ _ _ req) by done.
    unfold merge_response, bind, getitem. simpl. rewrite Htime. done. }
  split; [done|].
  intros rest Hds Hclean Hvars Hskip.
  unfold add_dqr_to_qc, bind. rewrite Hds, Hclean.
  unfold resolve_variables. rewrite Hvars.
  cbn [ret for_each]. unfold bind. rewrite Hskip, Hvar. done.
Qed.

(** *** Time ranges *)

Lemma wrap_int64_fits z :
  int64_min ≤ z ≤ 9223372036854775807 → wrap_int64 z = z.
Proof.
  unfold wrap_int64, int64_min. intros Hz.
  rewrite Z.mod_small by lia. lia.
Qed.

(** For epoch seconds that fit, the cast to nanoseconds is exact. *)
Lemma datetime64_us_to_ns_fits secs :
  fits_ns secs →
  datetime64_us_to_ns (secs * 1000000) = Some (secs * 1000000000).
Proof.
  intros [Hlo Hhi]. unfold datetime64_us_to_ns.
  rewrite wrap_int64_fits by (unfold int64_min; lia).
  destruct (Z.eqb_spec (secs * 1000000 * 1000) int64_min) as [E|_].
  - unfold int64_min in E. lia.
  - f_equal. lia.
Qed.

Lemma fits_ns_timestamp secs :
  fits_ns secs → min_timestamp ≤ secs ≤ max_timestamp.
Proof. unfold fits_ns, min_timestamp, max_timestamp. lia. Qed.

Lemma line_epochs_fields line s e :
  line_epochs line = Some (s, e) ↔
  ∃ f1 f2, line !! 1%nat = Some f1 ∧ PyStr.int f1 = Some s
           ∧ line !! 2%nat = Some f2 ∧ PyStr.int f2 = Some e.
Proof.
  unfold line_epochs. split.
  - destruct (line !! 1%nat) as [f1|]; [|done].
    destruct (line !! 2%nat) as [f2|]; [|done].
    destruct (PyStr.int f1) as [s'|] eqn:E1; [|done].
    destruct (PyStr.int f2) as [e'|] eqn:E2; [|done].
    intros [= -> ->]. by exists f1, f2.
  - intros (f1 & f2 & -> & -> & -> & ->). done.
Qed.

Lemma line_range_fields line f1 f2 s e :
  line !! 1%nat = Some f1 → PyStr.int f1 = Some s →
  min_timestamp ≤ s ≤ max_timestamp →
  line !! 2%nat = Some f2 → PyStr.int f2 = Some e →
  min_timestamp ≤ e ≤ max_timestamp →
  line_range line = Ok (s * 1000000, e * 1000000).
Proof.
  intros H1 Hs [Hs1 Hs2] H2 He [He1 He2].
  unfold line_range, item, datetime64_of_field.
  rewrite H1, H2. cbn. rewrite Hs, He. cbn.
  apply Z.leb_le in Hs1, Hs2, He1, He2.
  rewrite Hs1, Hs2, He1, He2. done.
Qed.

Lemma line_range_epochs line s e :
  line_epochs line = Some (s, e) → fits_ns s → fits_ns e →
  line_range line = Ok (s * 1000000, e * 1000000).
Proof.
  intros (f1 & f2 & H1 & Hs & H2 & He)%line_epochs_fields Fs Fe.
  eapply line_range_fields; eauto using fits_ns_timestamp.
Qed.

Lemma as_datetime_Instant c t : as_datetime c = Some (Some t) ↔ c = Instant t.
Proof. destruct c; simpl; split; congruence. Qed.

Lemma in_range_true s e o :
  fits_ns s → fits_ns e →
  in_range (s * 1000000) (e * 1000000) o = true
  ↔ ∃ t, o = Some t ∧ s * 1000000000 ≤ t ≤ e * 1000000000.
Proof.
  intros Fs Fe. unfold in_range.
  rewrite !datetime64_us_to_ns_fits by done.
  destruct o as [t|]; simpl.
  - rewrite andb_true_iff, !Z.leb_le. split.
    + intros Hr. by exists t.
    + by intros (t' & [= <-] & Hr).
  - split; [done|]. by intros (t & Ht & _).
Qed.

Lemma elem_of_time_where time ts s e i :
  fits_ns s → fits_ns e →
  mapM as_datetime time = Some ts →
  i ∈ Np.flatnonzero (in_range (s * 1000000) (e * 1000000) <$> ts) ↔
  in_range_at time s e i.
Proof.
  intros Fs Fe Hts%mapM_Some. unfold in_range_at.
  rewrite elem_of_flatnonzero, list_lookup_fmap.
  apply and_iff_compat_l. split.
  - intros Hl. destruct (ts !! Z.to_nat i) as [o|] eqn:Eo; [|done].
    injection Hl as Hl. apply in_range_true in Hl as [t [-> Hr]]; [|done..].
    destruct (Forall2_lookup_r _ _ _ _ _ Hts Eo) as (c & Hc & Hd).
    apply as_datetime_Instant in Hd as ->. eauto.
  - intros (t & Hc & Hr).
    destruct (Forall2_lookup_l _ _ _ _ _ Hts Hc) as (o & Ho & Hd).
    simpl in Hd. injection Hd as <-. rewrite Ho.
    change (Some (in_range (s * 1000000) (e * 1000000) (Some t))
            = Some true).
    f_equal. apply in_range_true; eauto.
Qed.

(** The positions of a line whose epoch fields fit, whenever the line
    has positions at all. *)
Lemma elem_of_line_positions time line s e positions :
  line_epochs line = Some (s, e) → fits_ns s → fits_ns e →
  line_positions time line = Ok positions →
  ∀ i, i ∈ positions ↔ in_range_at time s e i.
Proof.
  intros Hep Fs Fe Hpos i. unfold line_positions in Hpos.
  rewrite (line_range_epochs _ _ _ Hep Fs Fe) in Hpos. cbn in Hpos.
  unfold time_where in Hpos.
  destruct (mapM as_datetime time) as [ts|] eqn:Hts; [|done].
  cbn in Hpos. injection Hpos as <-. by apply elem_of_time_where.
Qed.

Lemma line_positions_defined time line s e :
  line_epochs line = Some (s, e) → fits_ns s → fits_ns e →
  Forall (λ c, is_Some (as_datetime c)) time →
  ∃ positions, line_positions time line = Ok positions.
Proof.
  intros Hep Fs Fe Htime.
  apply (mapM_is_Some as_datetime) in Htime as [ts Hts].
  unfold line_positions, time_where.
  rewrite (line_range_epochs _ _ _ Hep Fs Fe). cbn. rewrite Hts. cbn.
  eauto.
Qed.

(** The inclusive range, for epoch fields whose nanoseconds fit 64
    bits.  With the two epoch fields of a line converted to
    timestamps, the positions computed for the line are exactly the
    positions of the time coordinate whose timestamp lies between
    start and end, both ends included; for a variable with a time
    dimension they are the index that is recorded. *)
Theorem inclusive_range_within_int64
    (time : list cell) (line : list string) (s e : Z) :
  line_epochs line = Some (s, e) →
  fits_ns s → fits_ns e →
  Forall (λ c, is_Some (as_datetime c)) time →
  ∃ positions,
    line_positions time line = Ok positions
    ∧ (∀ i, i ∈ positions ↔ in_range_at time s e i)
    ∧ (∀ arr, member "time" (dims arr) = true →
              record_index arr positions = IndTuple [positions]).
Proof.
  intros Hep Fs Fe Htime.
  destruct (line_positions_defined _ _ _ _ Hep Fs Fe Htime)
    as [positions Hpos].
  exists positions. split; [done|]. split.
  - by eapply elem_of_line_positions.
  - intros arr Hdim. unfold record_index. by rewrite Hdim.
Qed.

(** No position of the time coordinate inside the range: the line has
    no positions. *)
Lemma line_positions_empty time line s e :
  line_epochs line = Some (s, e) → fits_ns s → fits_ns e →
  Forall (λ c, is_Some (as_datetime c)) time →
  (∀ i, ¬ in_range_at time s e i) →
  line_positions time line = Ok [].
Proof.
  intros Hep Fs Fe Htime Hout.
  destruct (line_positions_defined _ _ _ _ Hep Fs Fe Htime)
    as [positions Hpos].
  rewrite Hpos. f_equal. apply elem_of_nil_inv. intros i Hi.
  apply (Hout i). by eapply elem_of_line_positions.
Qed.

(** The silent drop, for epoch fields whose nanoseconds fit 64 bits.
    A line that passes the filters and whose range holds no timestamp
    of the time coordinate changes nothing: the records and the world
    stay as they are, nothing is raised, and the loop goes on as if
    the line were not in the response. *)
Theorem empty_range_within_int64_is_dropped
    (a : Args) (var : string) (time : list cell)
    (pre post : list string) (text_line dqr_no : string) (s e : Z)
    (res : dict) (w : World QC) :
  line_id text_line = Some dqr_no →
  accepted a dqr_no = true →
  line_epochs (PyStr.split "|" text_line) = Some (s, e) →
  fits_ns s → fits_ns e →
  Forall (λ c, is_Some (as_datetime c)) time →
  (∀ i, ¬ in_range_at time s e i) →
  process_line a var time res text_line w = (w, Ok res)
  ∧ for_fold (process_line a var time) res (pre ++ text_line :: post) w
    = for_fold (process_line a var time) res (pre ++ post) w.
Proof.
  intros Hid Hacc Hep Fs Fe Htime Hout.
  assert (Hpos := line_positions_empty _ _ _ _ Hep Fs Fe Htime Hout).
  split; [by eapply process_line_empty|].
  rewrite !for_fold_app. unfold bind.
  destruct (for_fold (process_line a var time) res pre w)
    as [w1 [res1|err]]; [|done].
  cbn [for_fold]. unfold bind.
  by rewrite (process_line_empty a var time res1 text_line dqr_no w1).
Qed.

(** *** Filters *)

(** C6.  A line whose id is in the exclude list, or is missing from a
    given include list, is skipped before anything else is read from
    it: the records and the world stay as they are.  Hence every
    record the loop produces has an id outside the exclude list and
    inside the include list. *)
Theorem filters_apply_before_merge
    (a : Args) (var : string) (time : list cell) (res : dict)
    (text_line dqr_no : string) (w : World QC) :
  line_id text_line = Some dqr_no →
  (excluded a dqr_no = true →
   process_line a var time res text_line w = (w, Ok res))
  ∧ (not_included a dqr_no = true →
     process_line a var time res text_line w = (w, Ok res))
  ∧ (∀ dqrs w' res' k entry,
       process_lines a var time dqrs w = (w', Ok res') →
       dict_get k res' = Some entry →
       excluded a k = false ∧ not_included a k = false).
Proof.
  intros Hid. split; [|split].
  - intros He. eapply process_line_filtered; [done|].
    unfold accepted. by rewrite He.
  - intros Hi. eapply process_line_filtered; [done|].
    unfold accepted. by rewrite Hi, andb_false_r.
  - intros dqrs w' res' k entry Hrun Hget.
    apply accepted_true.
    eapply (process_lines_keys a var time dqrs [] w w' res'); [done| |done].
    intros k' e'. done.
Qed.

(** *** Registration *)

Lemma register_one_ok var kv w d2 :
  qcfilter_add_test (ds w) var (index kv.2) (test_meaning kv.2)
    (test_assessment kv.2) = (d2, None) →
  register_one var kv w
  = ({| ds := d2; log := log w ++ [add_test_event var kv] |}, Ok tt).
Proof.
  intros Hadd. unfold register_one, except_IndexError, host_call.
  rewrite Hadd. done.
Qed.

Lemma register_one_IndexError var kv w d2 :
  qcfilter_add_test (ds w) var (index kv.2) (test_meaning kv.2)
    (test_assessment kv.2) = (d2, Some IndexError) →
  register_one var kv w
  = ({| ds := d2;
        log := log w ++ [add_test_event var kv; EPrint (skip_notice var)] |},
     Ok tt).
Proof.
  intros Hadd. unfold register_one, except_IndexError, host_call, emit.
  rewrite Hadd. cbn. by rewrite <- app_assoc.
Qed.

(** When the registration raises nothing but [IndexError], the loop
    over the records attempts every record, in order, and returns. *)
Lemma register_results_total var res :
  (∀ d i m s e, (qcfilter_add_test d var i m s).2 = Some e →
                e = IndexError) →
  ∀ w, ∃ w' added,
    register_results var res w = (w', Ok tt)
    ∧ log w' = log w ++ added
    ∧ List.filter is_add_test added = add_test_event var <$> res.
Proof.
  intros Honly. unfold register_results.
  induction res as [|kv res IH]; intros w; cbn [for_each].
  - exists w, []. by rewrite app_nil_r.
  - destruct (qcfilter_add_test (ds w) var (index kv.2)
                (test_meaning kv.2) (test_assessment kv.2))
      as [d2 [e|]] eqn:Hadd.
    + assert (e = IndexError) as ->.
      { eapply (Honly (ds w)). by rewrite Hadd. }
      unfold bind. rewrite (register_one_IndexError _ _ _ _ Hadd).
      edestruct IH as (w' & added & -> & Hlog & Hfilter).
      eexists _, (_ :: _ :: added). split; [done|].
      split; [by rewrite Hlog; cbn; rewrite <- app_assoc|].
      cbn. by rewrite Hfilter.
    + unfold bind. rewrite (register_one_ok _ _ _ _ Hadd).
      edestruct IH as (w' & added & -> & Hlog & Hfilter).
      eexists _, (_ :: added). split; [done|].
      split; [by rewrite Hlog; cbn; rewrite <- app_assoc|].
      cbn. by rewrite Hfilter.
Qed.

(** C8.  When the registration of one aggregated record raises
    [IndexError], the notice is printed and the loop goes on with the
    remaining records, from the state the failed call left; and when
    [IndexError] is all the registration ever raises, the loop over the
    records returns having attempted every record. *)
Theorem index_error_is_recovered
    (var : string) (pre rest : dict) (kv : string * dqr_entry)
    (w w1 : World QC) (d2 : Dataset QC) :
  register_results var pre w = (w1, Ok tt) →
  qcfilter_add_test (ds w1) var (index kv.2) (test_meaning kv.2)
    (test_assessment kv.2) = (d2, Some IndexError) →
  register_results var (pre ++ kv :: rest) w
  = register_results var rest
      {| ds := d2;
         log := log w1
                ++ [add_test_event var kv; EPrint (skip_notice var)] |}
  ∧ ((∀ d i m s e, (qcfilter_add_test d var i m s).2 = Some e →
                   e = IndexError) →
     ∃ w' added,
       register_results var (pre ++ kv :: rest) w = (w', Ok tt)
       ∧ log w' = log w ++ added
       ∧ List.filter is_add_test added
         = add_test_event var <$> (pre ++ kv :: rest)).
Proof.
  intros Hpre Hadd. split.
  - unfold register_results in *. rewrite for_each_app. unfold bind at 1.
    rewrite Hpre. cbn [for_each]. unfold bind.
    by rewrite (register_one_IndexError _ _ _ _ Hadd).
  - intros Honly. apply register_results_total, Honly.
Qed.

(** *** Normalization *)

(** C9.  With [normalize_assessment] set, processing a variable is
    processing it with the flag cleared and then, right after the
    registrations, calling the normalization for that variable; with
    the flag cleared no call of the procedure ever reaches the
    normalization. *)
Theorem normalization_follows_flag
    (a : Args) (datastream var : string) (w : World QC) :
  process_variable (set_normalize true a) datastream var w
  = bind (process_variable (set_normalize false a) datastream var)
      (fun _ => host_call (ENormalize var)
                  (fun d => clean_normalize_assessment d var)) w
  ∧ normalize_calls (log (process_variable (set_normalize false a)
                            datastream var w).1)
    = normalize_calls (log w)
  ∧ normalize_calls (log (add_dqr_to_qc (set_normalize false a) w).1)
    = normalize_calls (log w).
Proof.
  assert (Hquiet : ∀ (A : Type) (m : M QC A) w0,
             emits (λ ev, ∀ v, ev ≠ ENormalize v) m →
             normalize_calls (log (m w0).1) = normalize_calls (log w0)).
  { intros A m w0 Hm. destruct (m w0) as [w' r] eqn:E. cbn.
    destruct (Hm _ _ _ E) as (added & -> & Hall).
    unfold normalize_calls. rewrite omap_app.
    rewrite <- (app_nil_r (omap _ (log w0))) at 2. f_equal.
    clear E. induction Hall as [|ev added Hev _ IH]; [done|].
    cbn. rewrite IH. destruct ev; try done. by destruct (Hev var_name). }
  split; [|split].
  - unfold process_variable, bind, merge_response, bind.
    change (request_url (set_normalize true a))
      with (request_url (set_normalize false a)).
    change (process_lines (QC:=QC) (set_normalize true a))
      with (process_lines (QC:=QC) (set_normalize false a)).
    cbn [normalize_assessment set_normalize].
    repeat (case_match; simplify_eq/=; try done).
  - apply Hquiet. apply emits_process_variable; try done.
  - apply Hquiet. apply emits_add_dqr_to_qc; try done.
Qed.

(** *** Aggregation *)


Lemma foldl_merge_two pre mid post c1 c2 :
  Forall (eq None) pre → Forall (eq None) mid → Forall (eq None) post →
  foldl merge_index None (pre ++ Some c1 :: mid ++ Some c2 :: post)
  = Some (Np.append c1 c2).
Proof.
  intros Hpre Hmid Hpost.
  rewrite foldl_app, (foldl_merge_index_None _ pre) by done. cbn.
  rewrite foldl_app, (foldl_merge_index_None _ mid) by done. cbn.
  by rewrite foldl_merge_index_None.
Qed.


Lemma well_formed_positions a time text_line d :
  well_formed a time text_line = true →
  line_id text_line = Some d →
  accepted a d = true →
  ∃ positions,
    line_positions time (PyStr.split "|" text_line) = Ok positions.
Proof.
  unfold well_formed, line_id. intros Hwf Hid Hacc.
  rewrite Hid, Hacc in Hwf.
  destruct (line_positions time (PyStr.split "|" text_line))
    as [positions|err]; [eauto|done].
Qed.


(** The positions of a well-formed line that passes the filters and
    whose epoch fields fit. *)
Lemma well_formed_range a time text_line d s e :
  well_formed a time text_line = true →
  line_id text_line = Some d →
  accepted a d = true →
  line_epochs (PyStr.split "|" text_line) = Some (s, e) →
  fits_ns s → fits_ns e →
  ∃ positions,
    line_positions time (PyStr.split "|" text_line) = Ok positions
    ∧ ∀ i, i ∈ positions ↔ in_range_at time s e i.
Proof.
  intros Hwf Hid Hacc Hep Fs Fe.
  destruct (well_formed_positions _ _ _ _ Hwf Hid Hacc)
    as [positions Hpos].
  exists positions. split; [done|]. by eapply elem_of_line_positions.
Qed.

(** C1, for a variable with a time dimension and epoch fields whose
    nanoseconds fit 64 bits.  In a response of well-formed lines in
    which exactly two lines carry the report id [d], both passing the
    filters and both with a range that meets the time coordinate, the
    record of [d] holds the positions of the time coordinate whose
    timestamp lies in one of the two ranges, and no other position;
    exchanging the two lines gives a record with the same
    positions. *)
Theorem merged_index_is_union
    (a : Args) (var : string) (time : list cell) (arr : DataArray)
    (pre mid post : list string) (l1 l2 d : string) (s1 e1 s2 e2 : Z)
    (w : World QC) :
  arrays (ds w) !! var = Some arr →
  member "time" (dims arr) = true →
  Forall (λ l, well_formed a time l = true)
    (pre ++ l1 :: mid ++ l2 :: post) →
  line_id l1 = Some d → line_id l2 = Some d →
  accepted a d = true →
  line_epochs (PyStr.split "|" l1) = Some (s1, e1) →
  fits_ns s1 → fits_ns e1 →
  line_epochs (PyStr.split "|" l2) = Some (s2, e2) →
  fits_ns s2 → fits_ns e2 →
  (∃ i, in_range_at time s1 e1 i) →
  (∃ i, in_range_at time s2 e2 i) →
  Forall (λ l, line_id l ≠ Some d) (pre ++ mid ++ post) →
  ∃ w1 w2 res1 res2 r1 r2,
    process_lines a var time (pre ++ l1 :: mid ++ l2 :: post) w
    = (w1, Ok res1)
    ∧ process_lines a var time (pre ++ l2 :: mid ++ l1 :: post) w
      = (w2, Ok res2)
    ∧ dict_get d res1 = Some r1
    ∧ dict_get d res2 = Some r2
    ∧ (∀ i, i ∈ Np.ravel (index r1) ↔
            in_range_at time s1 e1 i ∨ in_range_at time s2 e2 i)
    ∧ (∀ i, i ∈ Np.ravel (index r2) ↔ i ∈ Np.ravel (index r1)).
Proof.
  intros Harr Hdim Hwf Hid1 Hid2 Hacc Hep1 Fs1 Fe1 Hep2 Fs2 Fe2
    [i1 Hin1] [i2 Hin2] Hothers.
  assert (Hwf1 : well_formed a time l1 = true).
  { apply Forall_app in Hwf as [_ Hwf]. by apply Forall_cons in Hwf as [? _]. }
  assert (Hwf2 : well_formed a time l2 = true).
  { apply Forall_app in Hwf as [_ Hwf]. apply Forall_cons in Hwf as [_ Hwf].
    apply Forall_app in Hwf as [_ Hwf]. by apply Forall_cons in Hwf as [? _]. }
  destruct (well_formed_range _ _ _ _ _ _ Hwf1 Hid1 Hacc Hep1 Fs1 Fe1)
    as (P1 & Hp1 & Hr1).
  destruct (well_formed_range _ _ _ _ _ _ Hwf2 Hid2 Hacc Hep2 Fs2 Fe2)
    as (P2 & Hp2 & Hr2).
  apply Hr1 in Hin1. apply Hr2 in Hin2.
  destruct P1 as [|p1 ps1]; [by apply elem_of_nil in Hin1|].
  destruct P2 as [|p2 ps2]; [by apply elem_of_nil in Hin2|].
  apply Forall_app in Hothers as [Hpre [Hmid Hpost]%Forall_app].
  assert (Hwf' : Forall (λ l, well_formed a time l = true)
                   (pre ++ l2 :: mid ++ l1 :: post)).
  { rewrite !Forall_app, !Forall_cons, !Forall_app, !Forall_cons in *.
    tauto. }
  assert (Hrec : ∀ ps, ps ≠ [] → record_index arr ps = IndTuple [ps]).
  { intros ps _. unfold record_index. by rewrite Hdim. }
  pose proof (line_index_own a time arr d l1 _ _ Hid1 Hacc Hp1) as Hc1.
  pose proof (line_index_own a time arr d l2 _ _ Hid2 Hacc Hp2) as Hc2.
  rewrite Hrec in Hc1, Hc2 by done.
  pose proof (line_index_others a time arr d _ Hpre) as Npre.
  pose proof (line_index_others a time arr d _ Hmid) as Nmid.
  pose proof (line_index_others a time arr d _ Hpost) as Npost.
  destruct (process_lines_index a var time arr _ [] w Harr Hwf)
    as (w1 & res1 & Hrun1 & _ & Hidx1).
  destruct (process_lines_index a var time arr _ [] w Harr Hwf')
    as (w2 & res2 & Hrun2 & _ & Hidx2).
  specialize (Hidx1 d). specialize (Hidx2 d). cbn [dict_get fmap] in *.
  rewrite !fmap_app, !fmap_cons, !fmap_app, !fmap_cons, Hc1, Hc2
    in Hidx1, Hidx2.
  change (option_fmap _ _ index None) with (@None index_t) in *.
  rewrite foldl_merge_two in Hidx1, Hidx2 by done.
  apply fmap_Some in Hidx1 as (r1 & He1 & Hi1).
  apply fmap_Some in Hidx2 as (r2 & He2 & Hi2).
  exists w1, w2, res1, res2, r1, r2.
  do 4 (split; [done|]).
  rewrite <- Hi1, <- Hi2. cbn. rewrite !app_nil_r.
  split; intros i.
  - rewrite <- Hr1, <- Hr2.
    apply (elem_of_app (p1 :: ps1) (p2 :: ps2)).
  - rewrite !elem_of_cons, !elem_of_app, !elem_of_cons. tauto.
Qed.


End Claims.

(** * The procedure on concrete data *)

Section Runs.
Import Demo.

(** C3.  A response with status 404 is not an error for the
    procedure: its body is parsed and a test is registered. *)
Theorem status_404_is_processed :
  (add_dqr_to_qc (host := host (answer 404 (body [d1_first])))
     (args ["temp_mean"]) (world named)).2
  = Ok {| attrs := named;
          arrays := arrays (dataset named);
          data_vars := ["temp_mean"; "calib"];
          qc := [("temp_mean", IndTuple [[0; 1]], "D1: bad sensor",
                  "Incorrect")] |}
  ∧ log (add_dqr_to_qc (host := host (answer 404 (body [d1_first])))
           (args ["temp_mean"]) (world named)).1
    = [EGet (request_url (args ["temp_mean"]) "sgpmetE13.b1" "temp_mean");
       EAddTest "temp_mean" (IndTuple [[0; 1]]) "D1: bad sensor"
         "Incorrect"].
Proof.
  split; vm_compute; reflexivity.
Qed.

(** C4.  The report D1 below is still open: its end lies in the year
    3000.  Every timestamp of the time coordinate lies between its
    start and its end, but the end, cast to nanoseconds in 64 bits,
    wraps to a timestamp before the epoch: the line has no positions,
    and the call registers no test for a variable with a time
    dimension. *)
Theorem open_ended_report_selects_nothing :
  member "time" (dims temp_mean) = true
  ∧ line_epochs (PyStr.split "|" d1_open) = Some (0, 32503680000)
  ∧ Forall (in_range_at (values time_coord) 0 32503680000) [0; 1; 2; 3; 4]
  ∧ line_range (PyStr.split "|" d1_open) = Ok (0, 32503680000000000)
  ∧ datetime64_us_to_ns 32503680000000000 = Some (-4389808147419103232)
  ∧ line_positions (values time_coord) (PyStr.split "|" d1_open) = Ok []
  ∧ add_dqr_to_qc (host := host (answer 200 (body [d1_open])))
      (args ["temp_mean"]) (world named)
    = (logged (world named)
         [EGet (request_url (args ["temp_mean"]) "sgpmetE13.b1"
                  "temp_mean")],
       Ok (dataset named)).
Proof.
  split; [reflexivity|]. split; [reflexivity|]. split.
  { repeat (constructor;
            [split; [lia|eexists; split; [reflexivity|vm_compute; done]]|]).
    constructor. }
  repeat split; vm_compute; reflexivity.
Qed.

(** C7.  The report D1 below covers the years 2262 to 2554: no
    timestamp of the time coordinate lies in its range.  Cast to
    nanoseconds in 64 bits, its start wraps to the year 1677 and its
    end to a quarter of a second after the epoch: the first timestamp
    of the coordinate is selected and a test is registered. *)
Theorem late_report_registers_test :
  line_id d1_late = Some "D1"
  ∧ accepted (args ["temp_mean"]) "D1" = true
  ∧ line_epochs (PyStr.split "|" d1_late)
    = Some (9223372037, 18446744074)
  ∧ (∀ i, ¬ in_range_at (values time_coord) 9223372037 18446744074 i)
  ∧ datetime64_us_to_ns 9223372037000000 = Some (-9223372036709551616)
  ∧ datetime64_us_to_ns 18446744074000000 = Some 290448384
  ∧ line_positions (values time_coord) (PyStr.split "|" d1_late)
    = Ok [0]
  ∧ add_dqr_to_qc (host := host (answer 200 (body [d1_late])))
      (args ["temp_mean"]) (world named)
    = ({| ds := {| attrs := named;
                   arrays := arrays (dataset named);
                   data_vars := ["temp_mean"; "calib"];
                   qc := [("temp_mean", IndTuple [[0]], "D1: bad sensor",
                           "Incorrect")] |};
          log := [EGet (request_url (args ["temp_mean"]) "sgpmetE13.b1"
                          "temp_mean");
                  EAddTest "temp_mean" (IndTuple [[0]]) "D1: bad sensor"
                    "Incorrect"] |},
       Ok {| attrs := named;
             arrays := arrays (dataset named);
             data_vars := ["temp_mean"; "calib"];
             qc := [("temp_mean", IndTuple [[0]], "D1: bad sensor",
                     "Incorrect")] |}).
Proof.
  do 3 (split; [reflexivity|]). split.
  { intros i [_ (t & Hl & Ht)].
    destruct (Z.to_nat i) as [|[|[|[|[|n]]]]]; vm_compute in Hl;
      try discriminate; injection Hl as <-; lia. }
  repeat split; vm_compute; reflexivity.
Qed.

Lemma datastream_checked_first_witness :
  (attrs (ds (world unnamed)) !! "datastream" = None
   ∧ attrs (ds (world unnamed)) !! "_datastream" = None)
  ∧ (∃ msg,
       add_dqr_to_qc (host := host (answer 200 "")) default_args
         (world unnamed)
       = (world unnamed, Raise (ValueError msg))
       ∧ (identifying_name (ds (world unnamed)) = None →
          msg = "Dataset does not have datastream attribute"))
  ∧ (∃ msg,
       add_dqr_to_qc (host := host (answer 200 "")) default_args
         (world default_named)
       = (world default_named, Raise (ValueError msg))
       ∧ (identifying_name (ds (world default_named)) = None →
          msg = "Dataset does not have datastream attribute")).
Proof.
  split; [split; reflexivity|]. split.
  - apply (datastream_checked_first (host := host (answer 200 ""))).
    left. split; reflexivity.
  - apply (datastream_checked_first (host := host (answer 200 ""))).
    right. vm_compute. reflexivity.
Defined.

Lemma time_coordinate_required_witness :
  arrays (ds timeless_world) !! "time" = None
  ∧ process_variable (host := host (answer 200 ""))
      (args ["calib"]) "sgpmetE13.b1" "calib" timeless_world
    = (logged timeless_world
         [EGet (request_url (args ["calib"]) "sgpmetE13.b1" "calib")],
       Raise (KeyError "time")).
Proof.
  split; [reflexivity|].
  apply (time_coordinate_required (host := host (answer 200 ""))
           (args ["calib"]) "sgpmetE13.b1" "calib" timeless_world
           {| status_code := 200; text := "" |}).
  - reflexivity.
  - simpl. lia.
  - simpl. lia.
  - reflexivity.
Defined.

Lemma inclusive_range_within_int64_witness :
  line_epochs (PyStr.split "|" d1_second) = Some (30, 45)
  ∧ fits_ns 30 ∧ fits_ns 45
  ∧ ∃ positions,
      line_positions (values time_coord) (PyStr.split "|" d1_second)
      = Ok positions
      ∧ (∀ i, i ∈ positions ↔ in_range_at (values time_coord) 30 45 i)
      ∧ (∀ arr, member "time" (dims arr) = true →
                record_index arr positions = IndTuple [positions]).
Proof.
  split; [reflexivity|].
  split; [unfold fits_ns; lia|]. split; [unfold fits_ns; lia|].
  apply (inclusive_range_within_int64 (values time_coord)
           (PyStr.split "|" d1_second) 30 45).
  - reflexivity.
  - unfold fits_ns. lia.
  - unfold fits_ns. lia.
  - repeat (constructor; [by eexists|]). constructor.
Defined.

Lemma empty_range_within_int64_is_dropped_witness :
  line_id d9_outside = Some "D9"
  ∧ accepted (args ["calib"]) "D9" = true
  ∧ line_epochs (PyStr.split "|" d9_outside) = Some (1000, 2000)
  ∧ process_line (QC:=qc_state) (args ["calib"]) "calib"
      (values time_coord) [] d9_outside (world named)
    = (world named, Ok [])
  ∧ for_fold (process_line (QC:=qc_state) (args ["calib"]) "calib"
                (values time_coord))
      [] ([d2_line] ++ d9_outside :: [d1_first]) (world named)
    = for_fold (process_line (QC:=qc_state) (args ["calib"]) "calib"
                  (values time_coord))
        [] ([d2_line] ++ [d1_first]) (world named).
Proof.
  do 3 (split; [reflexivity|]).
  apply (empty_range_within_int64_is_dropped (QC := qc_state)
           (args ["calib"]) "calib" (values time_coord)
           [d2_line] [d1_first] d9_outside "D9" 1000 2000).
  - reflexivity.
  - reflexivity.
  - reflexivity.
  - unfold fits_ns. lia.
  - unfold fits_ns. lia.
  - repeat (constructor; [by eexists|]). constructor.
  - intros i [_ (t & Hl & Ht)].
    destruct (Z.to_nat i) as [|[|[|[|[|n]]]]]; vm_compute in Hl;
      try discriminate; injection Hl as <-; lia.
Defined.

Lemma filters_apply_before_merge_witness :
  line_id d1_first = Some "D1"
  ∧ process_line (QC:=qc_state)
      {| variable := VarList ["temp_mean"];
         assessment := "incorrect,suspect";
         exclude := Some ["D1"]; include := None;
         normalize_assessment := false; cleanup_qc := false;
         dqr_link := true; skip_location_vars := false |}
      "temp_mean" (values time_coord) [] d1_first (world named)
    = (world named, Ok []).
Proof.
  split; [reflexivity|].
  apply (proj1 (filters_apply_before_merge (QC := qc_state)
                  _ "temp_mean" (values time_coord) [] d1_first "D1"
                  (world named) eq_refl)).
  reflexivity.
Defined.

Lemma index_error_is_recovered_witness :
  qcfilter_add_test (HostLibrary := host (answer 200 ""))
    (ds (world named)) "calib" (index stray.2) (test_meaning stray.2)
    (test_assessment stray.2)
  = (ds (world named), Some IndexError)
  ∧ register_results (host := host (answer 200 "")) "calib"
      ([] ++ stray :: []) (world named)
    = (logged (world named)
         [add_test_event "calib" stray; EPrint (skip_notice "calib")],
       Ok tt).
Proof.
  split; [reflexivity|].
  apply (proj1 (index_error_is_recovered (host := host (answer 200 ""))
                  "calib" [] [] stray (world named) (world named)
                  (ds (world named)) eq_refl eq_refl)).
Defined.

(** C1 as stated fails for a variable without a time dimension: the
    two lines of report D1 have the positions 0, 1 and 3, 4 in their
    ranges, but the record of D1 for the three calibration constants
    holds position 2. *)
Lemma merged_index_without_time_dimension :
  line_id d1_first = Some "D1" ∧ line_id d1_second = Some "D1"
  ∧ accepted (args ["calib"]) "D1" = true
  ∧ line_positions (values time_coord) (PyStr.split "|" d1_first)
    = Ok [0; 1]
  ∧ line_positions (values time_coord) (PyStr.split "|" d1_second)
    = Ok [3; 4]
  ∧ ∃ entry,
      (process_lines (QC:=qc_state) (args ["calib"]) "calib"
         (values time_coord) [d1_first; d1_second] (world named))
      = (world named, Ok [("D1", entry)])
      ∧ ¬ (∀ i, i ∈ Np.ravel (index entry) ↔ i ∈ [0; 1] ∨ i ∈ [3; 4]).
Proof.
  do 5 (split; [reflexivity|]).
  eexists. split; [vm_compute; reflexivity|].
  cbn. intros Hunion.
  destruct (proj1 (Hunion 2)) as [Hin|Hin].
  - do 2 right. left.
  - repeat (apply elem_of_cons in Hin as [[=]|Hin]).
    by apply elem_of_nil in Hin.
  - repeat (apply elem_of_cons in Hin as [[=]|Hin]).
    by apply elem_of_nil in Hin.
Qed.

Lemma merged_index_is_union_witness :
  arrays (ds (world named)) !! "temp_mean" = Some temp_mean
  ∧ member "time" (dims temp_mean) = true
  ∧ line_epochs (PyStr.split "|" d1_first) = Some (0, 10)
  ∧ line_epochs (PyStr.split "|" d1_second) = Some (30, 45)
  ∧ in_range_at (values time_coord) 0 10 1
  ∧ in_range_at (values time_coord) 30 45 3
  ∧ ∃ w1 w2 res1 res2 r1 r2,
      process_lines (QC:=qc_state) (args ["temp_mean"]) "temp_mean"
        (values time_coord) ([] ++ d1_first :: [d2_line] ++ d1_second :: [])
        (world named)
      = (w1, Ok res1)
      ∧ process_lines (QC:=qc_state) (args ["temp_mean"]) "temp_mean"
          (values time_coord)
          ([] ++ d1_second :: [d2_line] ++ d1_first :: []) (world named)
        = (w2, Ok res2)
      ∧ dict_get "D1" res1 = Some r1
      ∧ dict_get "D1" res2 = Some r2
      ∧ (∀ i, i ∈ Np.ravel (index r1) ↔
              in_range_at (values time_coord) 0 10 i
              ∨ in_range_at (values time_coord) 30 45 i)
      ∧ (∀ i, i ∈ Np.ravel (index r2) ↔ i ∈ Np.ravel (index r1)).
Proof.
  assert (H1 : in_range_at (values time_coord) 0 10 1).
  { split; [lia|]. eexists. split; [reflexivity|]. vm_compute. done. }
  assert (H3 : in_range_at (values time_coord) 30 45 3).
  { split; [lia|]. eexists. split; [reflexivity|]. vm_compute. done. }
  do 4 (split; [reflexivity|]). split; [exact H1|]. split; [exact H3|].
  apply (merged_index_is_union (QC := qc_state)
           (args ["temp_mean"]) "temp_mean" (values time_coord) temp_mean
           [] [d2_line] [] d1_first d1_second "D1" 0 10 30 45
           (world named)).
  - reflexivity.
  - reflexivity.
  - repeat (constructor; [reflexivity|]). constructor.
  - reflexivity.
  - reflexivity.
  - reflexivity.
  - reflexivity.
  - unfold fits_ns. lia.
  - unfold fits_ns. lia.
  - reflexivity.
  - unfold fits_ns. lia.
  - unfold fits_ns. lia.
  - by exists 1.
  - by exists 3.
  - constructor; [|constructor]. vm_compute. discriminate.
Defined.



End Runs.

(** * Further properties of the procedure *)

(** ** The records as an ordered dictionary *)

Lemma dict_get_None_keys k (d : dict) : dict_get k d = None ↔ k ∉ d.*1.
Proof.
  induction d as [|[k' v'] d IH]; simpl.
  - split; [intros _; apply not_elem_of_nil|done].
  - rewrite not_elem_of_cons, <- IH.
    destruct (String.eqb_spec k k') as [->|Hne]; split; try done.
    + by intros [? _].
    + by intros [_ ?].
Qed.

Lemma dict_set_new k v (d : dict) :
  dict_get k d = None → dict_set k v d = d ++ [(k, v)].
Proof.
  induction d as [|[k' v'] d IH]; simpl; [done|].
  destruct (String.eqb k k'); [done|]. intros Hd. by rewrite IH.
Qed.

Lemma dict_set_old_keys k v old (d : dict) :
  dict_get k d = Some old → (dict_set k v d).*1 = d.*1.
Proof.
  induction d as [|[k' v'] d IH]; simpl; [done|].
  destruct (String.eqb_spec k k') as [->|Hne]; [done|].
  intros Hd. cbn. by rewrite IH.
Qed.

Lemma dict_set_old_links k v old (d : dict) :
  dict_get k d = Some old →
  test_assessment v = test_assessment old →
  link_event <$> dict_set k v d = link_event <$> d.
Proof.
  intros Hd Hsame. induction d as [|[k' v'] d IH]; simpl in *; [done|].
  destruct (String.eqb_spec k k') as [->|Hne].
  - injection Hd as ->. cbn. unfold link_event at 1 3. cbn.
    rewrite Hsame. reflexivity.
  - cbn. by rewrite IH.
Qed.

Section Records.
Context {QC : Type}.
Implicit Types (a : Args) (w : World QC) (res : dict).

(** What one pass of the loop body does to the records: nothing that
    shows in their keys and console lines, or one new record at the
    end. *)
Lemma process_line_shape a var time res text_line w w' res' :
  process_line a var time res text_line w = (w', Ok res') →
  (w' = w ∧ res'.*1 = res.*1 ∧ link_event <$> res' = link_event <$> res)
  ∨ (∃ dqr_no e,
       line_id text_line = Some dqr_no
       ∧ dict_get dqr_no res = None
       ∧ res' = res ++ [(dqr_no, e)]
       ∧ ds w' = ds w
       ∧ log w' = log w ++ (if dqr_link a then [link_event (dqr_no, e)]
                            else [])).
Proof.
  destruct (line_id_is_Some text_line) as [dqr_no Hid].
  pose proof (item_0 _ _ Hid) as H0.
  unfold process_line, bind, lift, getitem, of_option, lift, ret, emit.
  rewrite H0.
  repeat (case_match; simplify_eq/=; try done);
    intros [= <- <-];
    first
      [ by left
      | left; split; [done|]; split;
        [by eapply dict_set_old_keys | by eapply dict_set_old_links]
      | right; eexists _, _; split; [done|]; split; [done|];
        split; [by apply dict_set_new|]; split; [done|];
        by rewrite ?app_nil_r ].
Qed.

(** A record that exists keeps its severity and its description. *)
Lemma process_line_keeps a var time res text_line w w' res' d e :
  process_line a var time res text_line w = (w', Ok res') →
  dict_get d res = Some e →
  ∃ e', dict_get d res' = Some e'
        ∧ test_assessment e' = test_assessment e
        ∧ test_meaning e' = test_meaning e.
Proof.
  intros Hrun Hd. revert Hrun.
  unfold process_line, bind, lift, getitem, of_option, lift, ret, emit.
  repeat (case_match; simplify_eq/=; try done);
    intros [= <- <-]; eauto;
    match goal with
    | |- context [dict_set ?k _ _] =>
        destruct (decide (d = k)) as [->|Hne];
        [rewrite dict_get_set_eq; simplify_eq; eauto
        |rewrite dict_get_set_ne by done; eauto]
    end.
Qed.

End Records.

Section RecordLoop.
Context {QC : Type}.
Implicit Types (a : Args) (w : World QC) (res : dict).

(** The loop over the lines only appends records: the keys and console
    lines of the records it started from stay in place, every new key
    is new, is the id of a line of the response, and is printed (when
    links are asked for) at the moment its record is created. *)
Lemma process_lines_shape a var time dqrs :
  ∀ res w w' res',
    for_fold (process_line (QC:=QC) a var time) res dqrs w = (w', Ok res') →
    ∃ (newkeys : list string) (newlinks : list event),
      res'.*1 = (res.*1) ++ newkeys
      ∧ link_event <$> res' = (link_event <$> res) ++ newlinks
      ∧ ds w' = ds w
      ∧ log w' = log w ++ (if dqr_link a then newlinks else [])
      ∧ NoDup newkeys
      ∧ ∀ k, k ∈ newkeys →
             (k ∉ res.*1) ∧ ∃ l, l ∈ dqrs ∧ line_id l = Some k.
Proof.
  induction dqrs as [|l dqrs IH]; intros res w w' res'; cbn [for_fold].
  - intros [= <- <-]. exists [], []. rewrite !app_nil_r.
    split; [done|]. split; [done|]. split; [done|].
    split; [by destruct (dqr_link a); rewrite app_nil_r|].
    split; [constructor|]. intros k Hk. by apply elem_of_nil in Hk.
  - unfold bind.
    destruct (process_line a var time res l w) as [w1 [res1|err]] eqn:Hl;
      [|done].
    intros Hrest.
    destruct (IH _ _ _ _ Hrest) as (ks & ls & Hkeys & Hlinks & Hds & Hlog
                                    & Hnd & Hnew).
    destruct (process_line_shape _ _ _ _ _ _ _ _ Hl)
      as [(-> & Hk1 & Hl1)|(d & e & Hid & Hfresh & -> & Hds1 & Hlog1)].
    + exists ks, ls. rewrite Hk1 in Hkeys. rewrite Hl1 in Hlinks.
      do 5 (split; [done|]).
      intros k Hk. destruct (Hnew k Hk) as [Hout (l' & Hin & Hl')].
      split; [by rewrite <- Hk1|]. exists l'. split; [by right|done].
    + exists (d :: ks), (link_event (d, e) :: ls).
      rewrite Hkeys, Hlinks, !fmap_app, <- !app_assoc. cbn.
      split; [done|]. split; [done|]. split; [congruence|].
      split.
      { rewrite Hlog, Hlog1, <- app_assoc. by destruct (dqr_link a). }
      split.
      { constructor; [|done]. intros Hin.
        destruct (Hnew d Hin) as [Hout _]. apply Hout.
        rewrite fmap_app, elem_of_app. right. cbn. by left. }
      intros k [->|Hk]%elem_of_cons.
      * split; [by apply dict_get_None_keys|].
        exists l. split; [by left|done].
      * destruct (Hnew k Hk) as [Hout (l' & Hin & Hl')].
        split.
        { intros Hin'. apply Hout. rewrite fmap_app, elem_of_app. by left. }
        exists l'. split; [by right|done].
Qed.

Lemma process_lines_keeps a var time dqrs d :
  ∀ res w w' res' e,
    for_fold (process_line (QC:=QC) a var time) res dqrs w = (w', Ok res') →
    dict_get d res = Some e →
    ∃ e', dict_get d res' = Some e'
          ∧ test_assessment e' = test_assessment e
          ∧ test_meaning e' = test_meaning e.
Proof.
  induction dqrs as [|l dqrs IH]; intros res w w' res' e; cbn [for_fold].
  - intros [= <- <-] Hd. eauto.
  - unfold bind.
    destruct (process_line a var time res l w) as [w1 [res1|err]] eqn:Hl;
      [|done].
    intros Hrest Hd.
    destruct (process_line_keeps _ _ _ _ _ _ _ _ _ _ Hl Hd)
      as (e1 & Hd1 & Ha1 & Hm1).
    destruct (IH _ _ _ _ _ Hrest Hd1) as (e2 & Hd2 & Ha2 & Hm2).
    exists e2. split; [done|]. split; congruence.
Qed.

(** The first line of a report with positions creates the record, with
    its own severity and subject. *)
Lemma process_line_creates a var time res text_line w w1 res1 d p ps :
  process_line a var time res text_line w = (w1, Ok res1) →
  line_id text_line = Some d →
  accepted a d = true →
  line_positions time (PyStr.split "|" text_line) = Ok (p :: ps) →
  dict_get d res = None →
  ∃ assess subject e,
    PyStr.split "|" text_line !! 3%nat = Some assess
    ∧ last (PyStr.split "|" text_line) = Some subject
    ∧ dict_get d res1 = Some e
    ∧ test_assessment e = assess
    ∧ test_meaning e = PyStr.join ": " [d; subject].
Proof.
  intros Hrun Hid [He Hi]%accepted_true Hpos Hnew. revert Hrun.
  unfold process_line, bind, lift, getitem, of_option, lift.
  rewrite (item_0 _ _ Hid), He, Hi, Hpos. cbn.
  destruct (arrays (ds w) !! var) as [arr|]; [|done]. cbn.
  rewrite Hnew. unfold item, last_item.
  destruct (PyStr.split "|" text_line !! 3%nat) as [assess|]; [|done].
  destruct (last (PyStr.split "|" text_line)) as [subject|]; [|done].
  cbn. destruct (dqr_link a); cbn; intros [= <- <-];
    eexists _, _, _; rewrite dict_get_set_eq; done.
Qed.

(** A line of another report, or one without positions, creates no
    record of report [d]. *)
Lemma process_line_no_record a var time res text_line w w' res' d :
  process_line a var time res text_line w = (w', Ok res') →
  (line_id text_line = Some d →
   line_positions time (PyStr.split "|" text_line) = Ok []) →
  dict_get d res = None →
  dict_get d res' = None.
Proof.
  intros Hrun Hempty Hd.
  destruct (process_line_shape _ _ _ _ _ _ _ _ Hrun)
    as [(_ & Hkeys & _)|(k & e & Hid & _ & -> & _)].
  - apply dict_get_None_keys. rewrite Hkeys. by apply dict_get_None_keys.
  - destruct (decide (k = d)) as [->|Hne].
    + rewrite (process_line_empty a var time res text_line d w Hid
                 (Hempty Hid)) in Hrun.
      injection Hrun as _ Hres. apply (f_equal length) in Hres.
      rewrite length_app in Hres. simpl in Hres. lia.
    + apply dict_get_None_keys. rewrite fmap_app, elem_of_app.
      intros [Hin|Hin].
      * by apply dict_get_None_keys in Hd.
      * apply list_elem_of_singleton in Hin. simpl in Hin. congruence.
Qed.

Lemma process_lines_no_record a var time dqrs d :
  ∀ res w w' res',
    for_fold (process_line (QC:=QC) a var time) res dqrs w = (w', Ok res') →
    Forall (λ l, line_id l = Some d →
                 line_positions time (PyStr.split "|" l) = Ok []) dqrs →
    dict_get d res = None →
    dict_get d res' = None.
Proof.
  induction dqrs as [|l dqrs IH]; intros res w w' res'; cbn [for_fold].
  - by intros [= <- <-] _ Hd.
  - unfold bind.
    destruct (process_line a var time res l w) as [w1 [res1|err]] eqn:Hl;
      [|done].
    intros Hrest [Hempty Hall]%Forall_cons Hd.
    eapply IH; [done..|]. by eapply process_line_no_record.
Qed.

(** X1.  However many lines of a response carry a report id, the id has
    one record: the keys of the records are pairwise distinct, and each
    is the id of a line of the response that passes the filters. *)
Theorem report_has_one_record
    (a : Args) (var : string) (time : list cell) (dqrs : list string)
    (w w' : World QC) (res : dict) :
  process_lines a var time dqrs w = (w', Ok res) →
  NoDup res.*1
  ∧ ∀ k, k ∈ res.*1 →
         accepted a k = true ∧ ∃ l, l ∈ dqrs ∧ line_id l = Some k.
Proof.
  intros Hrun.
  destruct (process_lines_shape _ _ _ _ _ _ _ _ Hrun)
    as (ks & ls & Hkeys & _ & _ & _ & Hnd & Hnew).
  cbn in Hkeys. rewrite Hkeys. split; [done|].
  intros k Hk. split; [|by apply Hnew].
  destruct (dict_get k res) as [e|] eqn:Hget.
  - eapply (process_lines_keys a var time dqrs [] w w' res); [done| |done].
    intros k' e'. done.
  - apply dict_get_None_keys in Hget. by rewrite Hkeys in Hget.
Qed.

(** X2.  The loop over the lines leaves the dataset alone, and what it
    prints is decided by [dqr_link]: nothing without it, and with it
    one console line per record, in the order of the records, each with
    the id and the severity of its record. *)
Theorem link_lines_follow_records
    (a : Args) (var : string) (time : list cell) (dqrs : list string)
    (w w' : World QC) (res : dict) :
  process_lines a var time dqrs w = (w', Ok res) →
  ds w' = ds w
  ∧ log w' = log w ++ (if dqr_link a then link_event <$> res else []).
Proof.
  intros Hrun.
  destruct (process_lines_shape _ _ _ _ _ _ _ _ Hrun)
    as (ks & ls & _ & Hlinks & Hds & Hlog & _ & _).
  cbn in Hlinks. by rewrite Hlinks.
Qed.

(** X3.  The severity and the description of a record are those of the
    first line of its report that has positions of the time coordinate
    in its range: lines of the report before it, without positions,
    leave no trace, and lines that follow add positions and nothing
    else. *)
Theorem first_line_fixes_severity
    (a : Args) (var : string) (time : list cell)
    (pre post : list string) (text_line d : string) (p : Z) (ps : list Z)
    (w w' : World QC) (res : dict) :
  process_lines a var time (pre ++ text_line :: post) w = (w', Ok res) →
  Forall (λ l, line_id l = Some d →
               line_positions time (PyStr.split "|" l) = Ok []) pre →
  line_id text_line = Some d →
  accepted a d = true →
  line_positions time (PyStr.split "|" text_line) = Ok (p :: ps) →
  ∃ assess subject e,
    PyStr.split "|" text_line !! 3%nat = Some assess
    ∧ last (PyStr.split "|" text_line) = Some subject
    ∧ dict_get d res = Some e
    ∧ test_assessment e = assess
    ∧ test_meaning e = PyStr.join ": " [d; subject].
Proof.
  unfold process_lines. rewrite for_fold_app. unfold bind at 1.
  destruct (for_fold (process_line a var time) [] pre w)
    as [w0 [res0|err]] eqn:Hpre; [|done].
  cbn [for_fold]. unfold bind.
  destruct (process_line a var time res0 text_line w0)
    as [w1 [res1|err]] eqn:Hline; [|done].
  intros Hpost Hbefore Hid Hacc Hpos.
  assert (Hfresh : dict_get d res0 = None).
  { by eapply (process_lines_no_record a var time pre d [] w w0 res0). }
  destruct (process_line_creates _ _ _ _ _ _ _ _ _ _ _ Hline Hid Hacc Hpos
              Hfresh) as (assess & subject & e1 & H3 & Hlast & Hd1 & Ha & Hm).
  destruct (process_lines_keeps _ _ _ _ _ _ _ _ _ _ Hpost Hd1)
    as (e & Hd & Ha' & Hm').
  exists assess, subject, e. split; [done|]. split; [done|].
  split; [done|]. split; congruence.
Qed.

End RecordLoop.

(** ** Lines the loop body cannot read *)

Section LineErrors.
Context {QC : Type} {host : HostLibrary QC}.
Implicit Types (a : Args) (w : World QC) (res : dict).

Lemma process_line_raises a var time res text_line d e w :
  line_id text_line = Some d →
  accepted a d = true →
  line_positions time (PyStr.split "|" text_line) = Raise e →
  process_line (QC:=QC) a var time res text_line w = (w, Raise e).
Proof.
  intros Hid [He Hi]%accepted_true Hpos.
  unfold process_line, bind, lift.
  by rewrite (item_0 _ _ Hid), He, Hi, Hpos.
Qed.

Lemma process_lines_ds a var time dqrs :
  ∀ res w w' r,
    for_fold (process_line (QC:=QC) a var time) res dqrs w = (w', r) →
    ds w' = ds w.
Proof.
  induction dqrs as [|l dqrs IH]; intros res w w' r; cbn [for_fold].
  - by intros [= <- _].
  - unfold bind.
    destruct (process_line a var time res l w) as [w1 [res1|err]] eqn:Hl.
    + intros Hrest. rewrite (IH _ _ _ _ Hrest).
      by eapply process_line_ds.
    + intros [= <- _]. by eapply process_line_ds.
Qed.

(** X4.  A line that passes the filters is read up to its two epoch
    fields before anything else is decided: without the first field the
    body raises [IndexError], with a first field that is no integer
    [ValueError], with an integer outside the years 1 to 9999 the
    conversion fails, and without the second field [IndexError] again.
    None of these is caught, and the records are left as they were. *)
Theorem malformed_line_raises
    (a : Args) (var : string) (time : list cell) (res : dict)
    (text_line d : string) (w : World QC) :
  line_id text_line = Some d →
  accepted a d = true →
  (PyStr.split "|" text_line !! 1%nat = None →
   process_line a var time res text_line w = (w, Raise IndexError))
  ∧ (∀ f1, PyStr.split "|" text_line !! 1%nat = Some f1 →
           PyStr.int f1 = None →
           process_line a var time res text_line w
           = (w, Raise (ValueError "invalid literal for int() with base 10")))
  ∧ (∀ f1 s, PyStr.split "|" text_line !! 1%nat = Some f1 →
             PyStr.int f1 = Some s →
             ¬ (min_timestamp ≤ s ≤ max_timestamp) →
             process_line a var time res text_line w
             = (w, Raise TimestampOutOfRange))
  ∧ (∀ f1 s, PyStr.split "|" text_line !! 1%nat = Some f1 →
             PyStr.int f1 = Some s →
             min_timestamp ≤ s ≤ max_timestamp →
             PyStr.split "|" text_line !! 2%nat = None →
             process_line a var time res text_line w
             = (w, Raise IndexError)).
Proof.
  intros Hid Hacc.
  split; [|split; [|split]].
  - intros H1. apply (process_line_raises _ _ _ _ _ d); [done..|].
    unfold line_positions, line_range, item. by rewrite H1.
  - intros f1 H1 Hint. apply (process_line_raises _ _ _ _ _ d); [done..|].
    unfold line_positions, line_range, item, datetime64_of_field.
    by rewrite H1; cbn; rewrite Hint.
  - intros f1 s H1 Hint Hout.
    apply (process_line_raises _ _ _ _ _ d); [done..|].
    unfold line_positions, line_range, item, datetime64_of_field.
    rewrite H1. cbn. rewrite Hint. cbn.
    destruct (Z.leb_spec min_timestamp s), (Z.leb_spec s max_timestamp);
      cbn; try done.
    exfalso. apply Hout. lia.
  - intros f1 s H1 Hint [Hlo Hhi] H2.
    apply (process_line_raises _ _ _ _ _ d); [done..|].
    unfold line_positions, line_range, item, datetime64_of_field.
    rewrite H1. cbn. rewrite Hint. cbn.
    apply Z.leb_le in Hlo, Hhi. rewrite Hlo, Hhi. cbn. by rewrite H2.
Qed.

(** X5.  The severity field is read only when a record is created: a
    line without it raises [IndexError] as the first line of its report
    and is merged, without complaint, as a later one. *)
Theorem severity_read_by_first_line_only
    (a : Args) (var : string) (time : list cell) (res : dict)
    (text_line d : string) (p : Z) (ps : list Z) (arr : DataArray)
    (w : World QC) :
  line_id text_line = Some d →
  accepted a d = true →
  line_positions time (PyStr.split "|" text_line) = Ok (p :: ps) →
  arrays (ds w) !! var = Some arr →
  PyStr.split "|" text_line !! 3%nat = None →
  (dict_get d res = None →
   process_line a var time res text_line w = (w, Raise IndexError))
  ∧ (∀ old, dict_get d res = Some old →
            process_line a var time res text_line w
            = (w, Ok (dict_set d
                        {| index := Np.append (index old)
                                      (record_index arr (p :: ps));
                           test_assessment := test_assessment old;
                           test_meaning := test_meaning old |} res))).
Proof.
  intros Hid Hacc Hpos Harr H3. split.
  - intros Hnew. apply accepted_true in Hacc as [He Hi].
    unfold process_line, bind, lift, getitem, of_option, lift.
    rewrite (item_0 _ _ Hid), He, Hi, Hpos. cbn. rewrite Harr. cbn.
    rewrite Hnew. unfold item. by rewrite H3.
  - intros old Hold. by eapply process_line_merge.
Qed.


Lemma process_lines_inert a var time dqrs :
  Forall (λ l, inert a time l = true) dqrs →
  ∀ res w, for_fold (process_line (QC:=QC) a var time) res dqrs w
           = (w, Ok res).
Proof.
  induction 1 as [|l dqrs Hl _ IH]; intros res w; cbn [for_fold]; [done|].
  unfold bind. unfold inert in Hl.
  destruct (line_id l) as [d|] eqn:Hid; [|done].
  destruct (accepted a d) eqn:Hacc.
  - destruct (line_positions time (PyStr.split "|" l)) as [[|]|] eqn:Hpos;
      try done.
    by rewrite (process_line_empty a var time res l d w).
  - by rewrite (process_line_filtered a var time res l d w).
Qed.

(** X7.  A response that is empty, or whose lines all fail a filter or
    select no position of the time coordinate, registers nothing,
    whether or not the variable is in the dataset: all that is left of
    the loop body is the normalization, when it is asked for. *)
Theorem inert_response_registers_nothing
    (a : Args) (var : string) (req : Response) (time_arr : DataArray)
    (w : World QC) :
  arrays (ds w) !! "time" = Some time_arr →
  Forall (λ l, inert a (values time_arr) l = true)
    (PyStr.splitlines (text req)) →
  merge_response a var req w
  = (if normalize_assessment a
     then host_call (ENormalize var)
            (fun d => clean_normalize_assessment d var)
     else ret tt) w.
Proof.
  intros Htime Hinert.
  unfold merge_response, bind, getitem, of_option, lift. rewrite Htime. cbn.
  unfold process_lines. rewrite (process_lines_inert _ _ _ _ Hinert).
  done.
Qed.

(** X8.  The records are registered only after every line was read: an
    exception raised for any line of the response leaves the variable
    without any registration and without normalization; the dataset is
    as it was and only console lines were added to the log. *)
Theorem line_error_registers_nothing
    (a : Args) (var : string) (req : Response) (time_arr : DataArray)
    (w w1 : World QC) (e : exn) :
  arrays (ds w) !! "time" = Some time_arr →
  process_lines a var (values time_arr) (PyStr.splitlines (text req)) w
  = (w1, Raise e) →
  merge_response a var req w = (w1, Raise e)
  ∧ ds w1 = ds w
  ∧ ∃ added, log w1 = log w ++ added
             ∧ Forall (λ ev, is_print ev = true) added.
Proof.
  intros Htime Hrun. split; [|split].
  - unfold merge_response, bind, getitem, of_option, lift.
    rewrite Htime. cbn. by rewrite Hrun.
  - by eapply process_lines_ds.
  - eapply (emits_for_fold (λ ev, is_print ev = true)); [|exact Hrun].
    intros acc x. by apply emits_process_line.
Qed.

End LineErrors.

(** ** The log of a whole call *)

Section CallLog.
Context {QC : Type} {host : HostLibrary QC}.
Implicit Types (a : Args) (w : World QC).

Lemma get_urls_inner l : Forall inner l → get_urls l = [].
Proof.
  induction 1 as [|ev l [Hg _] _ IH]; [done|].
  destruct ev; try done; exact IH.
Qed.

Lemma normalize_calls_inner l : Forall inner l → normalize_calls l = [].
Proof.
  induction 1 as [|ev l (_ & Hn & _) _ IH]; [done|].
  destruct ev; try done; exact IH.
Qed.

Lemma inner_no_cleanup l :
  Forall inner l → Forall (λ ev, is_cleanup ev = false) l.
Proof. intros H. eapply Forall_impl; [done|]. by intros ev (_ & _ & ?). Qed.

Lemma getitem_run name w w' (r : result DataArray) :
  getitem name w = (w', r) → w' = w.
Proof. unfold getitem, of_option, lift. by intros [= <- _]. Qed.

(** One variable: the request, then what the response leads to, then
    the normalization when the flag is set and the end is reached. *)
Lemma process_variable_log a datastream var w w' r :
  process_variable a datastream var w = (w', r) →
  ∃ mid tail,
    log w' = log w ++ EGet (request_url a datastream var) :: mid ++ tail
    ∧ Forall inner mid
    ∧ (tail = [] ∨ tail = [ENormalize var])
    ∧ (r = Ok tt → tail = if normalize_assessment a then [ENormalize var]
                          else []).
Proof.
  unfold process_variable, bind, http_get.
  destruct (requests_get (request_url a datastream var)) as [req|e].
  2:{ intros [= <- <-]. exists [], []. cbn. split; [done|].
      split; [constructor|]. split; [by left|done]. }
  destruct (check_status (status_code req) _) as [w0 [[]|e]] eqn:Hst.
  2:{ revert Hst. unfold check_status.
      repeat case_match; intros [= <- <-] [= <- <-]; exists [], []; cbn;
        (split; [done|]); (split; [constructor|]); (split; [by left|done]). }
  assert (w0 = logged w [EGet (request_url a datastream var)]) as ->.
  { revert Hst. unfold check_status. by repeat case_match; intros [= <- ]. }
  unfold merge_response, bind.
  destruct (getitem "time" _) as [w1 [time_arr|e]] eqn:Htime;
    apply getitem_run in Htime as Hw1; subst w1.
  2:{ intros [= <- <-]. exists [], []. cbn. split; [done|].
      split; [constructor|]. split; [by left|done]. }
  destruct (process_lines a var (values time_arr) _ _)
    as [w2 [res|e]] eqn:Hlines.
  all: destruct (emits_for_fold inner (process_line a var (values time_arr))
                   (PyStr.splitlines (text req))
                   (fun acc x => emits_process_line inner
                                   (fun s => ltac:(done)) a var
                                   (values time_arr) acc x)
                   [] _ _ _ Hlines) as (added2 & Hlog2 & Hin2).
  2:{ intros [= <- <-]. exists added2, []. rewrite app_nil_r, Hlog2. cbn.
      rewrite <- app_assoc. split; [done|]. split; [done|].
      split; [by left|done]. }
  destruct (register_results var res w2) as [w3 [[]|e]] eqn:Hreg.
  all: destruct (emits_register_results inner (fun s => ltac:(done))
                   (fun v i m s => ltac:(done)) var res _ _ _ Hreg)
         as (added3 & Hlog3 & Hin3).
  2:{ intros [= <- <-]. exists (added2 ++ added3), [].
      rewrite app_nil_r, Hlog3, Hlog2. cbn. rewrite <- !app_assoc.
      split; [done|]. split; [by apply Forall_app|].
      split; [by left|done]. }
  destruct (normalize_assessment a).
  - unfold host_call. intros [= <- <-]. cbn.
    exists (added2 ++ added3), [ENormalize var].
    rewrite Hlog3, Hlog2. cbn. rewrite <- !app_assoc.
    split; [done|]. split; [by apply Forall_app|].
    split; [by right|done].
  - intros [= <- <-]. exists (added2 ++ added3), [].
    rewrite app_nil_r, Hlog3, Hlog2. cbn. rewrite <- !app_assoc.
    split; [done|]. split; [by apply Forall_app|].
    split; [by left|done].
Qed.

End CallLog.

Section CallRequests.
Context {QC : Type} {host : HostLibrary QC}.
Implicit Types (a : Args) (w : World QC).

Lemma get_urls_app l1 l2 : get_urls (l1 ++ l2) = get_urls l1 ++ get_urls l2.
Proof. apply omap_app. Qed.

Lemma normalize_calls_app l1 l2 :
  normalize_calls (l1 ++ l2) = normalize_calls l1 ++ normalize_calls l2.
Proof. apply omap_app. Qed.

(** The loop over the variables: one request per variable that is not
    skipped, in the order of the variables, up to the variable at which
    the call ends. *)
Lemma variables_log a datastream vars :
  ∀ w w' r,
    for_each
      (fun var_name =>
         if skip_location_vars a && member var_name loc_vars then ret tt
         else process_variable a datastream var_name) vars w = (w', r) →
    ∃ added,
      log w' = log w ++ added
      ∧ Forall (λ ev, is_cleanup ev = false) added
      ∧ get_urls added
        `prefix_of` (request_url a datastream
                       <$> List.filter (λ v, negb (skipped a v)) vars)
      ∧ (r = Ok tt →
         get_urls added
         = request_url a datastream
             <$> List.filter (λ v, negb (skipped a v)) vars
         ∧ normalize_calls added
           = if normalize_assessment a
             then List.filter (λ v, negb (skipped a v)) vars
             else []).
Proof.
  induction vars as [|v vars IH]; intros w w' r; cbn [for_each List.filter].
  - intros [= <- <-]. exists []. rewrite app_nil_r.
    split; [done|]. split; [constructor|]. split; [done|].
    intros _. by destruct (normalize_assessment a).
  - unfold bind.
    change (skip_location_vars a && member v loc_vars) with (skipped a v).
    destruct (skipped a v); cbn [negb].
    { cbn. apply IH. }
    destruct (process_variable a datastream v w) as [w1 [[]|e]] eqn:Hv;
      destruct (process_variable_log _ _ _ _ _ _ Hv)
        as (mid & tail & Hlog & Hmid & Htail & Hok).
    + intros Hrest.
      destruct (IH _ _ _ Hrest) as (added & Hlog' & Hcl & Hpre & Hall).
      exists (EGet (request_url a datastream v) :: mid ++ tail ++ added).
      assert (Hg : get_urls (mid ++ tail ++ added) = get_urls added).
      { rewrite !get_urls_app, get_urls_inner by done.
        by destruct Htail as [->| ->]. }
      split.
      { rewrite Hlog', Hlog, <- !app_assoc. cbn. by rewrite <- !app_assoc. }
      split.
      { constructor; [done|]. apply Forall_app. split.
        - by apply inner_no_cleanup.
        - apply Forall_app. split; [|done].
          destruct Htail as [->| ->]; repeat constructor. }
      cbn [get_urls omap list_omap]. fold (get_urls (mid ++ tail ++ added)).
      rewrite Hg. split; [by apply prefix_cons|].
      intros ->. destruct (Hall eq_refl) as [Hu Hn].
      rewrite Hu. split; [done|].
      change (normalize_calls (EGet (request_url a datastream v)
                                 :: mid ++ tail ++ added))
        with (normalize_calls (mid ++ tail ++ added)).
      rewrite !normalize_calls_app, normalize_calls_inner, Hn, (Hok eq_refl)
        by done.
      by destruct (normalize_assessment a).
    + intros [= <- <-].
      exists (EGet (request_url a datastream v) :: mid ++ tail).
      split; [done|]. split.
      { constructor; [done|]. apply Forall_app. split.
        - by apply inner_no_cleanup.
        - destruct Htail as [->| ->]; repeat constructor. }
      split; [|done].
      cbn [get_urls omap list_omap]. fold (get_urls (mid ++ tail)).
      rewrite get_urls_app, get_urls_inner by done.
      replace (get_urls tail) with (@nil string)
        by (by destruct Htail as [->| ->]).
      apply prefix_cons, prefix_nil.
Qed.

Lemma resolve_datastream_run w w0 (r : result string) :
  resolve_datastream w = (w0, r) →
  w0 = w
  ∧ ∀ name, r = Ok name →
            identifying_name (ds w) = Some name
            ∧ name ≠ DEFAULT_DATASTREAM_NAME.
Proof.
  unfold resolve_datastream, identifying_name, bind, get_ds.
  destruct (attrs (ds w) !! "datastream") as [n|];
    [|destruct (attrs (ds w) !! "_datastream") as [n|]]; cbn;
    try (destruct (String.eqb_spec n DEFAULT_DATASTREAM_NAME));
    intros [= <- <-]; (split; [done|]); intros name [= <-]; done.
Qed.

Lemma resolve_variables_run a w :
  ∃ vars, resolve_variables a w = (w, Ok vars)
          ∧ ∀ vs, explicit_variables a = Some vs → vars = vs.
Proof.
  unfold resolve_variables, explicit_variables.
  destruct (variable a); eexists; (split; [done|]); by intros vs [= <-].
Qed.

(** X9.  A call that returns has sent exactly one request per variable
    that the location test does not skip, in the order of the
    variables, each built from the first identifying attribute that is
    present; with [normalize_assessment] the normalization was called
    once for each of these variables, in the same order; and the value
    returned is the dataset as the call left it. *)
Theorem requests_follow_variables
    (a : Args) (w w' : World QC) (d : Dataset QC) :
  add_dqr_to_qc a w = (w', Ok d) →
  ∃ name vars,
    identifying_name (ds w) = Some name
    ∧ name ≠ DEFAULT_DATASTREAM_NAME
    ∧ (∀ vs, explicit_variables a = Some vs → vars = vs)
    ∧ get_urls (log w')
      = get_urls (log w)
        ++ (request_url a name
              <$> List.filter (λ v, negb (skipped a v)) vars)
    ∧ normalize_calls (log w')
      = normalize_calls (log w)
        ++ (if normalize_assessment a
            then List.filter (λ v, negb (skipped a v)) vars else [])
    ∧ d = ds w'.
Proof.
  unfold add_dqr_to_qc, bind.
  destruct (resolve_datastream w) as [w0 [name|e]] eqn:Hname; [|done].
  destruct (resolve_datastream_run _ _ _ Hname) as [-> Hid].
  destruct (Hid name eq_refl) as [Hname' Hne].
  set (clean := if cleanup_qc a then host_call ECleanup clean_cleanup
                else ret tt).
  destruct (clean w) as [w1 [[]|e]] eqn:Hclean; [|done].
  assert (Hlog1 : get_urls (log w1) = get_urls (log w)
                  ∧ normalize_calls (log w1) = normalize_calls (log w)).
  { revert Hclean. unfold clean, host_call, ret.
    destruct (cleanup_qc a).
    - intros [= <- _]. cbn.
      by rewrite get_urls_app, normalize_calls_app, !app_nil_r.
    - by intros [= <-]. }
  destruct (resolve_variables_run a w1) as (vars & -> & Hvars).
  destruct (for_each _ vars w1) as [w2 [[]|e]] eqn:Hloop; [|done].
  intros [= <- <-].
  destruct (variables_log _ _ _ _ _ _ Hloop)
    as (added & Hlog & _ & _ & Hall).
  destruct (Hall eq_refl) as [Hu Hn]. destruct Hlog1 as [Hu1 Hn1].
  exists name, vars. do 3 (split; [done|]).
  rewrite Hlog, get_urls_app, normalize_calls_app, Hu, Hn, Hu1, Hn1.
  done.
Qed.

(** X10.  With [skip_location_vars], no call, however it ends, sends
    a request for one of the location variables: every request it sends
    is the request of a variable outside the list. *)
Theorem location_variables_not_requested
    (a : Args) (w w' : World QC) (r : result (Dataset QC)) :
  add_dqr_to_qc a w = (w', r) →
  skip_location_vars a = true →
  ∃ added,
    log w' = log w ++ added
    ∧ ∀ u, u ∈ get_urls added →
           ∃ name v, u = request_url a name v ∧ member v loc_vars = false.
Proof.
  intros Hrun Hskip. revert Hrun. unfold add_dqr_to_qc, bind.
  destruct (resolve_datastream w) as [w0 [name|e]] eqn:Hname.
  2:{ destruct (resolve_datastream_run _ _ _ Hname) as [-> _].
      intros [= <- _]. exists []. rewrite app_nil_r. split; [done|].
      intros u Hu. by apply elem_of_nil in Hu. }
  destruct (resolve_datastream_run _ _ _ Hname) as [-> _].
  set (clean := if cleanup_qc a then host_call ECleanup clean_cleanup
                else ret tt).
  destruct (clean w) as [w1 [[]|e]] eqn:Hclean.
  2:{ intros [= <- _]. revert Hclean. unfold clean, host_call, ret.
      destruct (cleanup_qc a); [|done].
      intros [= <- _]. cbn. exists [ECleanup]. split; [done|].
      intros u Hu. by apply elem_of_nil in Hu. }
  assert (Hlog1 : ∃ pre, log w1 = log w ++ pre ∧ get_urls pre = []).
  { revert Hclean. unfold clean, host_call, ret.
    destruct (cleanup_qc a).
    - intros [= <- _]. cbn. by exists [ECleanup].
    - intros [= <-]. exists []. by rewrite app_nil_r. }
  destruct Hlog1 as (pre & Hlog1 & Hpre).
  destruct (resolve_variables_run a w1) as (vars & -> & _).
  destruct (for_each _ vars w1) as [w2 [[]|e]] eqn:Hloop;
    intros [= <- _];
    destruct (variables_log _ _ _ _ _ _ Hloop)
      as (added & Hlog & _ & [rest Hprefix] & _);
    exists (pre ++ added);
    (split; [by rewrite Hlog, Hlog1, app_assoc|]);
    intros u Hu; rewrite get_urls_app, Hpre in Hu; cbn in Hu;
    assert (Hin : u ∈ request_url a name
                      <$> List.filter (λ v, negb (skipped a v)) vars)
      by (rewrite Hprefix, elem_of_app; by left);
    apply list_elem_of_fmap in Hin as (v & -> & Hv);
    apply list_elem_of_In, filter_In in Hv as [_ Hv];
    exists name, v; (split; [done|]);
    unfold skipped in Hv; rewrite Hskip in Hv;
    apply negb_true_iff in Hv; exact Hv.
Qed.

(** X11.  Once the identifying name is accepted, [cleanup_qc] decides
    about the cleanup: with it the cleanup is the first thing the call
    does and is never called again, and when the cleanup raises the
    call ends there, before any request; without it the cleanup is
    never called. *)
Theorem cleanup_runs_first
    (a : Args) (w w' : World QC) (r : result (Dataset QC)) (name : string) :
  add_dqr_to_qc a w = (w', r) →
  identifying_name (ds w) = Some name →
  name ≠ DEFAULT_DATASTREAM_NAME →
  ∃ rest,
    log w' = log w ++ (if cleanup_qc a then [ECleanup] else []) ++ rest
    ∧ Forall (λ ev, is_cleanup ev = false) rest
    ∧ (∀ d1 e, cleanup_qc a = true →
               clean_cleanup (ds w) = (d1, Some e) →
               r = Raise e ∧ rest = []).
Proof.
  intros Hrun Hname Hne. revert Hrun. unfold add_dqr_to_qc, bind.
  assert (resolve_datastream w = (w, Ok name)) as ->.
  { revert Hname. unfold resolve_datastream, identifying_name, bind, get_ds.
    destruct (attrs (ds w) !! "datastream") as [n|].
    - intros [= ->]. cbn.
      by destruct (String.eqb_spec name DEFAULT_DATASTREAM_NAME).
    - intros ->. cbn.
      by destruct (String.eqb_spec name DEFAULT_DATASTREAM_NAME). }
  destruct (cleanup_qc a) eqn:Hflag.
  - unfold host_call at 1.
    destruct (clean_cleanup (ds w)) as [d1 [e|]] eqn:Hclean; cbn.
    + intros [= <- <-]. exists []. cbn. split; [done|].
      split; [constructor|]. intros d1' e' _ [= _ <-]. done.
    + set (w1 := {| ds := d1; log := log w ++ [ECleanup] |}).
      destruct (resolve_variables_run a w1) as (vars & -> & _).
      destruct (for_each _ vars w1) as [w2 [[]|e]] eqn:Hloop;
        intros [= <- <-];
        destruct (variables_log _ _ _ _ _ _ Hloop)
          as (added & Hlog & Hcl & _ & _);
        exists added; rewrite Hlog; cbn; rewrite <- app_assoc;
        (split; [done|]); (split; [done|]); by intros d1' e' _ [=].
  - cbn.
    destruct (resolve_variables_run a w) as (vars & -> & _).
    destruct (for_each _ vars w) as [w2 [[]|e]] eqn:Hloop;
      intros [= <- <-];
      destruct (variables_log _ _ _ _ _ _ Hloop)
        as (added & Hlog & Hcl & _ & _);
      exists added; rewrite Hlog; cbn;
      (split; [done|]); (split; [done|]); by intros d1' e' [=].
Qed.

Lemma NoDup_list_filter {A} (f : A → bool) (l : list A) :
  NoDup l → NoDup (List.filter f l).
Proof.
  induction 1 as [|x l Hx Hnd IH]; simpl; [constructor|].
  destruct (f x); [|done]. constructor; [|done].
  intros Hin. apply Hx. apply list_elem_of_In in Hin.
  apply filter_In in Hin as [Hin _]. by apply list_elem_of_In.
Qed.

(** X12.  Without a [variable] argument, a call that returns has sent
    its requests for exactly the data variables of the dataset, as the
    cleanup left it, that are not among the matched quality-control
    variables and that the location test does not skip: one request
    for each, in the order in which the set is iterated, and with
    [normalize_assessment] one normalization for each; provided the
    iteration of a set yields its elements, each once. *)
Theorem default_variables_exclude_qc
    (a : Args) (w w' : World QC) (d : Dataset QC) :
  variable a = VarNone →
  (∀ s : gset string, set_iteration s ≡ₚ elements s) →
  add_dqr_to_qc a w = (w', Ok d) →
  ∃ name vars,
    identifying_name (ds w) = Some name
    ∧ NoDup vars
    ∧ (∀ v, v ∈ vars ↔
            v ∈ data_vars (cleaned a (ds w))
            ∧ (v ∉ clean_matched_qc_variables (cleaned a (ds w)))
            ∧ skipped a v = false)
    ∧ get_urls (log w') = get_urls (log w) ++ (request_url a name <$> vars)
    ∧ normalize_calls (log w')
      = normalize_calls (log w)
        ++ (if normalize_assessment a then vars else []).
Proof.
  intros Hnone Hiter. unfold add_dqr_to_qc, bind.
  destruct (resolve_datastream w) as [w0 [name|e]] eqn:Hname; [|done].
  destruct (resolve_datastream_run _ _ _ Hname) as [-> Hid].
  destruct (Hid name eq_refl) as [Hname' Hne].
  set (clean := if cleanup_qc a then host_call ECleanup clean_cleanup
                else ret tt).
  destruct (clean w) as [w1 [[]|e]] eqn:Hclean; [|done].
  assert (Hlog1 : get_urls (log w1) = get_urls (log w)
                  ∧ normalize_calls (log w1) = normalize_calls (log w)
                  ∧ ds w1 = cleaned a (ds w)).
  { revert Hclean. unfold clean, host_call, ret, cleaned.
    destruct (cleanup_qc a).
    - intros [= <- _]. cbn.
      by rewrite get_urls_app, normalize_calls_app, !app_nil_r.
    - by intros [= <-]. }
  destruct Hlog1 as (Hu1 & Hn1 & Hds1).
  unfold resolve_variables. rewrite Hnone. unfold get_ds, ret. cbn.
  set (names := list_to_set (data_vars (ds w1))
                ∖ list_to_set (clean_matched_qc_variables (ds w1))).
  destruct (for_each _ (set_iteration names) w1) as [w2 [[]|e]] eqn:Hloop;
    [|done].
  intros [= <- <-].
  destruct (variables_log _ _ _ _ _ _ Hloop)
    as (added & Hlog & _ & _ & Hall).
  destruct (Hall eq_refl) as [Hu Hn].
  exists name, (List.filter (λ v, negb (skipped a v)) (set_iteration names)).
  split; [done|]. split; [|split; [|split]].
  - apply NoDup_list_filter. rewrite (Hiter names). apply NoDup_elements.
  - intros v. rewrite list_elem_of_In, filter_In, <- list_elem_of_In.
    rewrite (Hiter names), elem_of_elements. unfold names.
    rewrite elem_of_difference, !elem_of_list_to_set, Hds1.
    rewrite negb_true_iff. tauto.
  - by rewrite Hlog, get_urls_app, Hu, Hu1.
  - by rewrite Hlog, normalize_calls_app, Hn, Hn1.
Qed.

End CallRequests.

(** ** Splitting a line into fields *)

Lemma append_nil_r (s : string) : s +:+ "" = s.
Proof.
  induction s as [|c s IH]; [done|].
  change (String c (s +:+ "") = String c s). by rewrite IH.
Qed.

Lemma snoc_append cur c s : PyStr.snoc cur c +:+ s = cur +:+ String c s.
Proof.
  unfold PyStr.snoc. induction cur as [|x cur IH]; [done|].
  change (String x ((cur +:+ String c "") +:+ s)
          = String x (cur +:+ String c s)).
  by rewrite IH.
Qed.

Lemma chars_snoc cur c : chars (PyStr.snoc cur c) = chars cur ++ [c].
Proof.
  unfold PyStr.snoc, chars. induction cur as [|x cur IH]; [done|].
  change (x :: list_ascii_of_string (cur +:+ String c "")
          = x :: (list_ascii_of_string cur ++ [c])).
  by rewrite IH.
Qed.

Lemma split_from_cons sep cur s :
  ∃ f fs, PyStr.split_from sep cur s = f :: fs.
Proof.
  revert cur. induction s as [|c s IH]; intros cur; cbn; [eauto|].
  destruct (Ascii.eqb c sep); eauto.
Qed.

Lemma join_split_from sep cur s :
  PyStr.join (String sep "") (PyStr.split_from sep cur s) = cur +:+ s.
Proof.
  revert cur. induction s as [|c s IH]; intros cur; cbn [PyStr.split_from].
  - cbn [PyStr.join]. by rewrite append_nil_r.
  - destruct (Ascii.eqb_spec c sep) as [->|Hne].
    + specialize (IH ""). destruct (split_from_cons sep "" s) as (f & fs & Hf).
      rewrite Hf in IH |- *.
      change (cur +:+ String sep "" +:+ PyStr.join (String sep "") (f :: fs)
              = cur +:+ String sep s).
      rewrite IH. reflexivity.
    + rewrite IH. apply snoc_append.
Qed.

Lemma split_from_fields sep cur s :
  sep ∉ chars cur →
  Forall (λ f, sep ∉ chars f) (PyStr.split_from sep cur s).
Proof.
  revert cur. induction s as [|c s IH]; intros cur Hcur;
    cbn [PyStr.split_from].
  - by constructor.
  - destruct (Ascii.eqb_spec c sep) as [->|Hne].
    + constructor; [done|]. apply IH. apply not_elem_of_nil.
    + apply IH. rewrite chars_snoc, elem_of_app, list_elem_of_singleton.
      intros [?|?]; [done|]. by apply Hne.
Qed.

(** X13.  Splitting a line at a separator loses nothing: the fields,
    joined with the separator, are the line; there is at least one
    field, so the id and the subject of a line can always be read; and
    no field holds the separator. *)
Theorem split_join_round_trip (sep : ascii) (s : string) :
  PyStr.join (String sep "") (PyStr.split sep s) = s
  ∧ PyStr.split sep s ≠ []
  ∧ Forall (λ f, sep ∉ chars f) (PyStr.split sep s).
Proof.
  unfold PyStr.split. split; [apply join_split_from|]. split.
  - by destruct (split_from_cons sep "" s) as (f & fs & ->).
  - apply split_from_fields, not_elem_of_nil.
Qed.

(** * The further properties on concrete data *)

Section FurtherRuns.
Import Demo.

Lemma report_has_one_record_witness :
  process_lines (QC:=qc_state) (args ["temp_mean"]) "temp_mean"
    (values time_coord) [d1_first; d2_line; d1_second] (world named)
  = (world named, Ok merged_records)
  ∧ NoDup merged_records.*1
  ∧ ∀ k, k ∈ merged_records.*1 →
         accepted (args ["temp_mean"]) k = true
         ∧ ∃ l, l ∈ [d1_first; d2_line; d1_second] ∧ line_id l = Some k.
Proof.
  split; [vm_compute; reflexivity|].
  apply (report_has_one_record (QC:=qc_state) (args ["temp_mean"])
           "temp_mean" (values time_coord) [d1_first; d2_line; d1_second]
           (world named) (world named) merged_records).
  vm_compute. reflexivity.
Defined.

Lemma link_lines_follow_records_witness :
  link_run = (link_run.1, Ok merged_records)
  ∧ ds link_run.1 = ds (world named)
  ∧ log link_run.1
    = log (world named)
      ++ (if dqr_link link_args then link_event <$> merged_records else []).
Proof.
  split; [vm_compute; reflexivity|].
  apply (link_lines_follow_records (QC:=qc_state) link_args "temp_mean"
           (values time_coord) [d1_first; d2_line; d1_suspect]
           (world named) link_run.1 merged_records).
  vm_compute. reflexivity.
Defined.

Lemma first_line_fixes_severity_witness :
  line_id d1_before = Some "D1"
  ∧ line_positions (values time_coord) (PyStr.split "|" d1_before) = Ok []
  ∧ line_positions (values time_coord) (PyStr.split "|" d1_first)
    = Ok [0; 1]
  ∧ ∃ assess subject e,
      PyStr.split "|" d1_first !! 3%nat = Some assess
      ∧ last (PyStr.split "|" d1_first) = Some subject
      ∧ dict_get "D1"
          [("D2", {| index := IndTuple [[2]];
                     test_assessment := "Suspect";
                     test_meaning := "D2: drift" |});
           ("D1", {| index := IndArray [0; 1; 3; 4];
                     test_assessment := "Incorrect";
                     test_meaning := "D1: bad sensor" |})]
        = Some e
      ∧ test_assessment e = assess
      ∧ test_meaning e = PyStr.join ": " ["D1"; subject].
Proof.
  do 3 (split; [reflexivity|]).
  apply (first_line_fixes_severity (QC:=qc_state) link_args "temp_mean"
           (values time_coord) [d1_before; d2_line] [d1_suspect] d1_first
           "D1" 0 [1] (world named)
           (process_lines (QC:=qc_state) link_args "temp_mean"
              (values time_coord)
              ([d1_before; d2_line] ++ d1_first :: [d1_suspect])
              (world named)).1).
  - vm_compute. reflexivity.
  - constructor; [reflexivity|].
    constructor; [|constructor]. vm_compute. discriminate.
  - reflexivity.
  - reflexivity.
  - reflexivity.
Defined.

Lemma malformed_line_raises_witness :
  line_id blank = Some ""
  ∧ accepted (args ["temp_mean"]) "" = true
  ∧ PyStr.split "|" blank !! 1%nat = None
  ∧ process_line (QC:=qc_state) (args ["temp_mean"]) "temp_mean"
      (values time_coord) merged_records blank (world named)
    = (world named, Raise IndexError).
Proof.
  do 3 (split; [reflexivity|]).
  apply (proj1 (malformed_line_raises (QC:=qc_state) (args ["temp_mean"])
                  "temp_mean" (values time_coord) merged_records blank ""
                  (world named) eq_refl eq_refl)).
  reflexivity.
Defined.

Lemma severity_read_by_first_line_only_witness :
  PyStr.split "|" d1_short !! 3%nat = None
  ∧ process_line (QC:=qc_state) (args ["temp_mean"]) "temp_mean"
      (values time_coord) [] d1_short (world named)
    = (world named, Raise IndexError).
Proof.
  split; [reflexivity|].
  apply (proj1 (severity_read_by_first_line_only (QC:=qc_state)
                  (args ["temp_mean"]) "temp_mean" (values time_coord) []
                  d1_short "D1" 3 [4] temp_mean (world named)
                  eq_refl eq_refl eq_refl eq_refl eq_refl)).
  reflexivity.
Defined.


Lemma inert_response_registers_nothing_witness :
  arrays (ds (world named)) !! "time" = Some time_coord
  ∧ merge_response (host := host (answer 200 ""))
      (args ["pressure"]) "pressure"
      {| status_code := 200; text := body [d9_outside] |} (world named)
    = (world named, Ok tt).
Proof.
  split; [reflexivity|].
  apply (inert_response_registers_nothing (host := host (answer 200 ""))
           (args ["pressure"]) "pressure"
           {| status_code := 200; text := body [d9_outside] |}
           time_coord (world named)).
  - reflexivity.
  - change (Forall (λ l, inert (args ["pressure"]) (values time_coord) l
                         = true) [d9_outside]).
    constructor; [reflexivity|constructor].
Defined.

Lemma line_error_registers_nothing_witness :
  process_lines (QC:=qc_state) (args ["temp_mean"]) "temp_mean"
    (values time_coord)
    (PyStr.splitlines (body [d1_first; d1_short; blank; d2_line]))
    (world named)
  = (world named, Raise IndexError)
  ∧ merge_response (host := host (answer 200 ""))
      (args ["temp_mean"]) "temp_mean"
      {| status_code := 200;
         text := body [d1_first; d1_short; blank; d2_line] |} (world named)
    = (world named, Raise IndexError).
Proof.
  split; [vm_compute; reflexivity|].
  apply (proj1 (line_error_registers_nothing
                  (host := host (answer 200 ""))
                  (args ["temp_mean"]) "temp_mean"
                  {| status_code := 200;
                     text := body [d1_first; d1_short; blank; d2_line] |}
                  time_coord (world named) (world named) IndexError
                  eq_refl ltac:(vm_compute; reflexivity))).
Defined.

Lemma requests_follow_variables_witness :
  skip_run = (skip_run.1, Ok (ds skip_run.1))
  ∧ ∃ name vars,
      identifying_name (ds (world named)) = Some name
      ∧ name ≠ "act_datastream"
      ∧ (∀ vs, explicit_variables skip_args = Some vs → vars = vs)
      ∧ get_urls (log skip_run.1)
        = get_urls (log (world named))
          ++ (request_url skip_args name
                <$> List.filter (λ v, negb (skipped skip_args v)) vars)
      ∧ normalize_calls (log skip_run.1)
        = normalize_calls (log (world named))
          ++ (if normalize_assessment skip_args
              then List.filter (λ v, negb (skipped skip_args v)) vars
              else [])
      ∧ ds skip_run.1 = ds skip_run.1.
Proof.
  split; [vm_compute; reflexivity|].
  apply (requests_follow_variables
           (host := host (answer 200 (body [d1_first])))
           skip_args (world named) skip_run.1 (ds skip_run.1)).
  vm_compute. reflexivity.
Defined.

Lemma location_variables_not_requested_witness :
  skip_location_vars skip_args = true
  ∧ ∃ added,
      log skip_run.1 = log (world named) ++ added
      ∧ ∀ u, u ∈ get_urls added →
             ∃ name v, u = request_url skip_args name v
                       ∧ member v loc_vars = false.
Proof.
  split; [reflexivity|].
  apply (location_variables_not_requested
           (host := host (answer 200 (body [d1_first])))
           skip_args (world named) skip_run.1 skip_run.2).
  - vm_compute. reflexivity.
  - reflexivity.
Defined.

Lemma cleanup_runs_first_witness :
  identifying_name (ds (world named)) = Some "sgpmetE13.b1"
  ∧ ∃ rest,
      log skip_run.1
      = log (world named)
        ++ (if cleanup_qc skip_args then [ECleanup] else []) ++ rest
      ∧ Forall (λ ev, is_cleanup ev = false) rest
      ∧ (∀ d1 e, cleanup_qc skip_args = true →
                 clean_cleanup (HostLibrary :=
                                  host (answer 200 (body [d1_first])))
                   (ds (world named)) = (d1, Some e) →
                 skip_run.2 = Raise e ∧ rest = []).
Proof.
  split; [reflexivity|].
  apply (cleanup_runs_first
           (host := host (answer 200 (body [d1_first])))
           skip_args (world named) skip_run.1 skip_run.2 "sgpmetE13.b1").
  - vm_compute. reflexivity.
  - reflexivity.
  - discriminate.
Defined.

Lemma default_variables_exclude_qc_witness :
  variable default_args = VarNone
  ∧ ∃ name vars,
      identifying_name (ds (world named)) = Some name
      ∧ NoDup vars
      ∧ (∀ v, v ∈ vars ↔
              v ∈ data_vars
                    (cleaned (host := host (answer 200 (body [d1_first])))
                       default_args (ds (world named)))
              ∧ (v ∉ clean_matched_qc_variables
                       (HostLibrary := host (answer 200 (body [d1_first])))
                       (cleaned (host := host (answer 200 (body [d1_first])))
                          default_args (ds (world named))))
              ∧ skipped default_args v = false)
      ∧ get_urls (log default_run.1)
        = get_urls (log (world named))
          ++ (request_url default_args name <$> vars)
      ∧ normalize_calls (log default_run.1)
        = normalize_calls (log (world named))
          ++ (if normalize_assessment default_args then vars else []).
Proof.
  split; [reflexivity|].
  apply (default_variables_exclude_qc
           (host := host (answer 200 (body [d1_first])))
           default_args (world named) default_run.1 (ds default_run.1)).
  - reflexivity.
  - intros s. reflexivity.
  - vm_compute. reflexivity.
Defined.

End FurtherRuns.
